(** * tg_go_to_frame: the frame editor of the Terragen "go to frame" panel

    A shallow embedding of [tg_go_to_frame.py].  The script keeps four Tk
    string variables and one global flag, reacts to key and wheel events on
    a single Entry widget and talks to the Terragen RPC server through
    [terragen_rpc].

    Modelling choices:
    - a Python [str] is a sequence of Unicode code points, a list of [N];
      string literals of this file are read as such sequences.
    - Python integers are unbounded, hence [Z].  [int(text)] and [str(n)]
      are modelled as CPython 3.11 runs them with its default settings: the
      Unicode 14.0 tables of decimal digits and white space, and the limit
      of 4300 digits on conversions between [int] and [str].
    - Tk variables and the global [ERROR_SHOWN] are fields of one record,
      threaded through a small state/exception/log monad.
    - the Terragen server is an input: every handler that reaches it takes
      the replies it will get. *)

From Stdlib Require Import ZArith NArith List String Ascii Bool Lia.
From Stdlib Require Import DecimalString DecimalZ DecimalPos.
Import ListNotations.

Local Open Scope Z_scope.
Local Open Scope string_scope.

(** ** Python strings *)

Definition unicode : Type := list N.

Definition unicode_of_string (s : string) : unicode :=
  map N_of_ascii (list_ascii_of_string s).

Coercion unicode_of_string : string >-> unicode.

(** The decimal numeral of an integer: a minus sign when it is negative,
    then its digits without leading zeros. *)
Definition numeral (n : Z) : unicode :=
  unicode_of_string (NilZero.string_of_int (Z.to_int n)).

(** The number of digits of that numeral. *)
Definition digits (n : Z) : nat :=
  match n with
  | Z0 => 1
  | Zpos p | Zneg p => Decimal.nb_digits (Pos.to_uint p)
  end.

(** ** Python's [int(str)] and [str(int)] *)

Module Py.

(** [sys.int_info.default_max_str_digits] *)
Definition max_str_digits : nat := 4300.

(** [Py_ISSPACE] on ASCII: tab, line feed, vertical tab, form feed,
    carriage return and space. *)
Definition is_space (c : ascii) : bool :=
  let n := nat_of_ascii c in
  ((9 <=? n)%nat && (n <=? 13)%nat) || (n =? 32)%nat.

Definition is_digit (c : ascii) : bool :=
  let n := nat_of_ascii c in
  (48 <=? n)%nat && (n <=? 57)%nat.

Definition is_underscore (c : ascii) : bool :=
  (nat_of_ascii c =? 95)%nat.

Definition digit_value (c : ascii) : Z :=
  Z.of_nat (nat_of_ascii c - 48).

Fixpoint skip_space (l : list ascii) : list ascii :=
  match l with
  | c :: r => if is_space c then skip_space r else l
  | [] => []
  end.

(** The digit scan of [int]: digits accumulate in base ten, one underscore
    may stand between two digits, the scan stops at the first other
    character and fails when it stops just after an underscore. *)
Fixpoint scan_digits (prev_underscore : bool) (acc : Z) (l : list ascii)
  : option (Z * list ascii) :=
  match l with
  | c :: r =>
      if is_digit c then scan_digits false (10 * acc + digit_value c) r
      else if is_underscore c then
        if prev_underscore then None else scan_digits true acc r
      else if prev_underscore then None else Some (acc, l)
  | [] => if prev_underscore then None else Some (acc, [])
  end.

(** The digits that scan goes over: the underscores do not count. *)
Fixpoint count_digits (l : list ascii) : nat :=
  match l with
  | c :: r =>
      if is_digit c then S (count_digits r)
      else if is_underscore c then count_digits r
      else 0
  | [] => 0
  end.

(** The sign, when there is one, comes right after the leading space. *)
Definition take_sign (l : list ascii) : bool * list ascii :=
  match l with
  | c :: r =>
      if (nat_of_ascii c =? 43)%nat then (false, r)
      else if (nat_of_ascii c =? 45)%nat then (true, r)
      else (false, l)
  | [] => (false, [])
  end.

(** The digits after the sign, then white space up to the end.  The text
    must start with a digit: a leading underscore or no digit at all is an
    error, and so are more digits than [max_str_digits]. *)
Definition magnitude (negative : bool) (body : list ascii) : option Z :=
  match body with
  | c :: _ =>
      if is_digit c then
        if (max_str_digits <? count_digits body)%nat then None
        else
          match scan_digits false 0 body with
          | Some (n, rest) =>
              match skip_space rest with
              | [] => Some (if negative then - n else n)
              | _ :: _ => None
              end
          | None => None
          end
      else None
  | [] => None
  end.

(** [PyLong_FromString] in base ten: [None] stands for [ValueError]. *)
Definition int_of_chars (l : list ascii) : option Z :=
  let '(negative, body) := take_sign (skip_space l) in
  magnitude negative body.

(** [Py_UNICODE_ISSPACE] from code point 127 on. *)
Definition unicode_spaces : list N :=
  [
    133; 160; 5760; 8192; 8193; 8194; 8195; 8196; 8197; 8198; 8199; 8200;
    8201; 8202; 8232; 8233; 8239; 8287; 12288
  ]%N.

Definition unicode_space (c : N) : bool :=
  existsb (N.eqb c) unicode_spaces.

(** The zeros of the decimal digits from code point 127 on; each is followed
    by its digits one to nine. *)
Definition unicode_zeros : list N :=
  [
    1632; 1776; 1984; 2406; 2534; 2662; 2790; 2918; 3046; 3174; 3302; 3430;
    3558; 3664; 3792; 3872; 4160; 4240; 6112; 6160; 6470; 6608; 6784; 6800;
    6992; 7088; 7232; 7248; 42528; 43216; 43264; 43472; 43504; 43600;
    44016; 65296; 66720; 68912; 69734; 69872; 69942; 70096; 70384; 70736;
    70864; 71248; 71360; 71472; 71904; 72016; 72784; 73040; 73120; 92768;
    92864; 93008; 120782; 120792; 120802; 120812; 120822; 123200; 123632;
    125264; 130032
  ]%N.

(** [Py_UNICODE_TODECIMAL] from code point 127 on. *)
Definition unicode_decimal (c : N) : option N :=
  match find (fun z => (z <=? c)%N && (c <? z + 10)%N) unicode_zeros with
  | Some z => Some (c - z)%N
  | None => None
  end.

(** What [int] makes of a character before it parses: a character below 127
    is kept, a white space becomes a space, a decimal digit its ASCII digit
    and anything else a question mark. *)
Definition to_ascii (c : N) : ascii :=
  if (c <? 127)%N then ascii_of_N c
  else if unicode_space c then " "%char
  else
    match unicode_decimal c with
    | Some d => ascii_of_N (48 + d)
    | None => "?"%char
    end.

(** [int(text)]: [None] stands for [ValueError]. *)
Definition int (text : unicode) : option Z :=
  int_of_chars (map to_ascii text).

(** [str(n)]: the numeral of [n]; [None] stands for the [ValueError] raised
    when it has more digits than [max_str_digits]. *)
Definition str (n : Z) : option unicode :=
  if (max_str_digits <? digits n)%nat then None else Some (numeral n).

End Py.

(** ** Effects, exceptions and the state of the script *)

(** The four exceptions the script catches around its RPC calls.  The
    string is what the handler prints after its fixed message: [str(e)],
    or the formatted traceback for an API error. *)
Inductive rpc_error : Type :=
| ConnectionError (detail : string)
| TimeoutError (detail : string)
| ReplyError (detail : string)
| ApiError (trace : string).

Inductive exn : Type :=
| Rpc (e : rpc_error)
| ValueError.

(** What the script does to the outside world, in order. *)
Inductive effect : Type :=
| Popup (title message : string)
| Print (line : string)
| RpcRoot
| RpcGetParam (name : string)
| RpcSetParam (name : string) (value : Z).

(** The module-level variables (lines 193-198). *)
Record state : Type := mkState {
  current_frame_at_startup : unicode;
  current_frame_var : unicode;
  start_frame_var : unicode;
  end_frame_var : unicode;
  ERROR_SHOWN : bool
}.

Definition set_current_frame_at_startup (v : unicode) (s : state) : state :=
  mkState v (current_frame_var s) (start_frame_var s) (end_frame_var s)
    (ERROR_SHOWN s).

Definition set_current_frame_var (v : unicode) (s : state) : state :=
  mkState (current_frame_at_startup s) v (start_frame_var s) (end_frame_var s)
    (ERROR_SHOWN s).

Definition set_start_frame_var (v : unicode) (s : state) : state :=
  mkState (current_frame_at_startup s) (current_frame_var s) v
    (end_frame_var s) (ERROR_SHOWN s).

Definition set_end_frame_var (v : unicode) (s : state) : state :=
  mkState (current_frame_at_startup s) (current_frame_var s)
    (start_frame_var s) v (ERROR_SHOWN s).

Definition set_ERROR_SHOWN (b : bool) (s : state) : state :=
  mkState (current_frame_at_startup s) (current_frame_var s)
    (start_frame_var s) (end_frame_var s) b.

(** The Terragen server as the script sees it: what [tg.root()],
    [project.get_param] and [project.set_param] answer.  [terragen_rpc] is a
    library outside the script; following the gateway contract of the
    specification, a call succeeds or fails with one of the four errors and
    [get_param] yields an integer. *)
Record terragen : Type := mkTerragen {
  root : option rpc_error;
  get_param : string -> rpc_error + Z;
  set_param : string -> Z -> option rpc_error
}.

(** ** A monad for state, exceptions and the effect log *)

Inductive outcome (A : Type) : Type :=
| Returned (a : A)
| Raised (e : exn).

Arguments Returned {A} a.
Arguments Raised {A} e.

Definition M (A : Type) : Type := state -> outcome A * state * list effect.

Definition ret {A} (a : A) : M A := fun s => (Returned a, s, []).

Definition raise {A} (e : exn) : M A := fun s => (Raised e, s, []).

Definition bind {A B} (m : M A) (k : A -> M B) : M B :=
  fun s =>
    match m s with
    | (Returned a, s1, log1) =>
        match k a s1 with
        | (r, s2, log2) => (r, s2, (log1 ++ log2)%list)
        end
    | (Raised e, s1, log1) => (Raised e, s1, log1)
    end.

Notation "x <- m ;; k" := (bind m (fun x => k))
  (at level 61, m at next level, right associativity).
Notation "m ;; k" := (bind m (fun _ => k))
  (at level 61, right associativity).

(** [try: m except: handler]; a handler answering [None] does not match the
    exception, which then propagates. *)
Definition try_except {A} (m : M A) (handler : exn -> option (M A)) : M A :=
  fun s =>
    match m s with
    | (Returned a, s1, log1) => (Returned a, s1, log1)
    | (Raised e, s1, log1) =>
        match handler e with
        | Some h =>
            match h s1 with
            | (r, s2, log2) => (r, s2, (log1 ++ log2)%list)
            end
        | None => (Raised e, s1, log1)
        end
    end.

Definition read {A} (field : state -> A) : M A :=
  fun s => (Returned (field s), s, []).

Definition write (update : state -> state) : M unit :=
  fun s => (Returned tt, update s, []).

Definition emit (e : effect) : M unit := fun s => (Returned tt, s, [e]).

Definition result_of {A} (r : outcome A * state * list effect) : outcome A :=
  fst (fst r).

Definition state_of {A} (r : outcome A * state * list effect) : state :=
  snd (fst r).

Definition log_of {A} (r : outcome A * state * list effect) : list effect :=
  snd r.

(** ** The script *)

(** [os.path.basename(__file__)] *)
Definition script_name : string := "tg_go_to_frame.py".

Definition popup_warning (title message : string) : M unit :=
  emit (Popup title message).

Definition int (value : unicode) : M Z :=
  match Py.int value with
  | Some n => ret n
  | None => raise ValueError
  end.

Definition str (n : Z) : M unicode :=
  match Py.str n with
  | Some text => ret text
  | None => raise ValueError
  end.

Definition tg_root (tg : terragen) : M unit :=
  emit RpcRoot ;;
  match root tg with
  | None => ret tt
  | Some e => raise (Rpc e)
  end.

Definition project_get_param (tg : terragen) (name : string) : M Z :=
  emit (RpcGetParam name) ;;
  match get_param tg name with
  | inr v => ret v
  | inl e => raise (Rpc e)
  end.

Definition project_set_param (tg : terragen) (name : string) (value : Z)
  : M unit :=
  emit (RpcSetParam name value) ;;
  match set_param tg name value with
  | None => ret tt
  | Some e => raise (Rpc e)
  end.

Definition is_valid_integer (value : unicode) : M bool :=
  try_except
    (_ <- int value ;;
     ret true)
    (fun e =>
       match e with
       | ValueError =>
           Some (shown <- read ERROR_SHOWN ;;
                 (if negb shown then
                    popup_warning "Invalid input"
                      "Please enter a valid integer." ;;
                    write (set_ERROR_SHOWN true)
                  else ret tt) ;;
                 ret false)
       | Rpc _ => None
       end).

(** The four [except] clauses shared by [on_go_to] and [on_startup]. *)
Definition except_rpc (e : exn) : option (M unit) :=
  match e with
  | Rpc (ConnectionError detail) =>
      Some (popup_warning script_name
              ("Terragen RPC connection error" ++ detail))
  | Rpc (TimeoutError detail) =>
      Some (popup_warning script_name
              ("Terragen RPC timeout error" ++ detail))
  | Rpc (ReplyError detail) =>
      Some (popup_warning script_name
              ("Terragen RPC reply error" ++ detail))
  | Rpc (ApiError trace) =>
      Some (popup_warning script_name ("Terragen RPC API error" ++ trace))
  | ValueError => None
  end.

Definition on_go_to (tg : terragen) : M unit :=
  current_frame <- read current_frame_var ;;
  valid <- is_valid_integer current_frame ;;
  if (valid : bool) then
    write (set_ERROR_SHOWN false) ;;
    try_except
      (tg_root tg ;;
       text <- read current_frame_var ;;
       n <- int text ;;
       project_set_param tg "current_frame" n)
      except_rpc
  else ret tt.

(** [StringVar.set] given an integer hands it to Tcl, which keeps its
    decimal numeral; no [str] is called and no limit on the digits applies. *)
Definition decrease_value : M unit :=
  current_frame <- read current_frame_var ;;
  valid <- is_valid_integer current_frame ;;
  if (valid : bool) then
    n <- int current_frame ;;
    write (set_current_frame_var (numeral (n - 1)))
  else ret tt.

Definition increase_value : M unit :=
  current_frame <- read current_frame_var ;;
  valid <- is_valid_integer current_frame ;;
  if (valid : bool) then
    n <- int current_frame ;;
    write (set_current_frame_var (numeral (n + 1)))
  else ret tt.

Definition on_mouse_wheel (delta : Z) : M unit :=
  current_value <- read current_frame_var ;;
  valid <- is_valid_integer current_value ;;
  if (valid : bool) then
    if (0 <? delta)%Z then
      n <- int current_value ;;
      text <- str (n + 1) ;;
      write (set_current_frame_var text)
    else if (delta <? 0)%Z then
      n <- int current_value ;;
      text <- str (n - 1) ;;
      write (set_current_frame_var text)
    else ret tt
  else emit (Print "Invalid input").

Definition on_escape : M unit :=
  snapshot <- read current_frame_at_startup ;;
  write (set_current_frame_var snapshot).

Definition on_startup (tg : terragen) : M unit :=
  try_except
    (tg_root tg ;;
     current <- project_get_param tg "current_frame" ;;
     write (set_current_frame_at_startup (numeral current)) ;;
     snapshot <- read current_frame_at_startup ;;
     write (set_current_frame_var snapshot) ;;
     first <- project_get_param tg "start_frame" ;;
     write (set_start_frame_var (numeral first)) ;;
     last <- project_get_param tg "end_frame" ;;
     write (set_end_frame_var (numeral last)))
    except_rpc.

(** The variables as lines 193-198 create them: an unset [StringVar] holds
    the empty string. *)
Definition initial_state : state :=
  mkState "" "1" "" "" false.

(** Line 201: the state in which the event loop starts. *)
Definition startup (tg : terragen) : outcome unit * state * list effect :=
  on_startup tg initial_state.

(** ** The event loop *)

(** The bindings of lines 208-212, and the user changing the text of the
    Entry, which Tk writes to [current_frame_var]. *)
Inductive event : Type :=
| UserEdit (text : unicode)
| KeyRelease (tg : terragen)
| Up
| Down
| MouseWheel (delta : Z)
| Escape.

Definition dispatch (ev : event) : M unit :=
  match ev with
  | UserEdit text => write (set_current_frame_var text)
  | KeyRelease tg => on_go_to tg
  | Up => increase_value
  | Down => decrease_value
  | MouseWheel delta => on_mouse_wheel delta
  | Escape => on_escape
  end.

(** Tk reports an exception that leaves a callback and goes on. *)
Definition callback (m : M unit) : M unit :=
  fun s =>
    match m s with
    | (_, s1, log1) => (Returned tt, s1, log1)
    end.

Fixpoint run (evs : list event) : M unit :=
  match evs with
  | [] => ret tt
  | ev :: rest => callback (dispatch ev) ;; run rest
  end.

(** The states after each event of a run. *)
Fixpoint trajectory (s : state) (evs : list event) : list state :=
  match evs with
  | [] => []
  | ev :: rest =>
      let s1 := state_of (dispatch ev s) in
      s1 :: trajectory s1 rest
  end.

(** ** Observations on states and logs *)

Definition valid_text (s : state) : bool :=
  match Py.int (current_frame_var s) with
  | Some _ => true
  | None => false
  end.

Definition is_invalid_input_popup (e : effect) : bool :=
  match e with
  | Popup title _ => String.eqb title "Invalid input"
  | _ => false
  end.

Definition invalid_input_popups (log : list effect) : nat :=
  List.length (filter is_invalid_input_popup log).

Definition is_popup (e : effect) : bool :=
  match e with
  | Popup _ _ => true
  | _ => false
  end.

Definition is_rpc (e : effect) : bool :=
  match e with
  | RpcRoot | RpcGetParam _ | RpcSetParam _ _ => true
  | Popup _ _ | Print _ => false
  end.

Definition is_set_param (e : effect) : bool :=
  match e with
  | RpcSetParam _ _ => true
  | _ => false
  end.

Definition kind_name (e : rpc_error) : string :=
  match e with
  | ConnectionError _ => "connection error"
  | TimeoutError _ => "timeout error"
  | ReplyError _ => "reply error"
  | ApiError _ => "API error"
  end.

Definition detail_of (e : rpc_error) : string :=
  match e with
  | ConnectionError d | TimeoutError d | ReplyError d | ApiError d => d
  end.

(** ** The grammar of integer texts *)

(** The white space and the decimal digits of [int], read off the
    characters themselves. *)
Definition is_space_char (c : N) : bool :=
  ((9 <=? c)%N && (c <=? 13)%N) || (c =? 32)%N || Py.unicode_space c.

Definition is_digit_char (c : N) : bool :=
  ((48 <=? c)%N && (c <=? 57)%N)
  || match Py.unicode_decimal c with
     | Some _ => true
     | None => false
     end.

Definition is_underscore_char (c : N) : bool := (c =? 95)%N.

Definition is_sign_char (c : N) : bool := (c =? 43)%N || (c =? 45)%N.

(** The text after its sign, when it has one. *)
Definition drop_sign (text : unicode) : unicode :=
  match text with
  | c :: r => if is_sign_char c then r else text
  | [] => []
  end.

(** The specification's wording: an optional sign and then decimal digits,
    nothing else. *)
Definition is_signed_decimal (text : unicode) : bool :=
  match drop_sign text with
  | [] => false
  | c :: r => forallb is_digit_char (c :: r)
  end.

(** Digits in groups separated by single underscores. *)
Inductive digit_groups {A : Type} (digit underscore : A -> bool)
  : list A -> Prop :=
| dg_last c : digit c = true -> digit_groups digit underscore [c]
| dg_digit c r :
    digit c = true -> digit_groups digit underscore r ->
    digit_groups digit underscore (c :: r)
| dg_group c u r :
    digit c = true -> underscore u = true ->
    digit_groups digit underscore r ->
    digit_groups digit underscore (c :: u :: r).

Definition is_sign (l : unicode) : Prop :=
  l = [] \/ l = [43%N] \/ l = [45%N].

(** What [int] accepts: white space, an optional sign, digit groups of at
    most [Py.max_str_digits] digits in all, white space. *)
Definition int_literal (text : unicode) : Prop :=
  exists lead sign body trail : unicode,
    text = (lead ++ sign ++ body ++ trail)%list /\
    Forall (fun c => is_space_char c = true) lead /\
    is_sign sign /\
    digit_groups is_digit_char is_underscore_char body /\
    (List.length (filter is_digit_char body) <= Py.max_str_digits)%nat /\
    Forall (fun c => is_space_char c = true) trail.

(** The same grammar on the characters [int] parses. *)
Definition ascii_sign (l : list ascii) : Prop :=
  l = [] \/ l = ["+"%char] \/ l = ["-"%char].

Definition ascii_literal (l : list ascii) : Prop :=
  exists lead sign body trail,
    l = (lead ++ sign ++ body ++ trail)%list /\
    Forall (fun c => Py.is_space c = true) lead /\
    ascii_sign sign /\
    digit_groups Py.is_digit Py.is_underscore body /\
    (List.length (filter Py.is_digit body) <= Py.max_str_digits)%nat /\
    Forall (fun c => Py.is_space c = true) trail.

(** ** Auxiliary definitions for the statements *)

Definition invalid_input_popup : effect :=
  Popup "Invalid input" "Please enter a valid integer.".

Definition failure_popup (e : rpc_error) : effect :=
  Popup script_name ("Terragen RPC " ++ kind_name e ++ detail_of e).

(** A server that answers every call; the project runs from frame 1 to
    frame 100 and stands at frame [current]. *)
Definition server_at (current : Z) : terragen :=
  mkTerragen None
    (fun name =>
       if String.eqb name "current_frame" then inr current
       else if String.eqb name "start_frame" then inr 1
       else inr 100)
    (fun _ _ => None).

(** A server that cannot be reached. *)
Definition server_down (e : rpc_error) : terragen :=
  mkTerragen (Some e) (fun _ => inl e) (fun _ _ => Some e).

(** A server whose project answers [current_frame] and fails afterwards. *)
Definition server_failing_after_current (current : Z) (e : rpc_error)
  : terragen :=
  mkTerragen None
    (fun name =>
       if String.eqb name "current_frame" then inr current else inl e)
    (fun _ _ => Some e).

(** Where the scan may stop: at the end, or before a character that is
    neither a digit nor an underscore. *)
Definition scan_stop (rest : list ascii) : Prop :=
  match rest with
  | [] => True
  | c :: _ => Py.is_digit c = false /\ Py.is_underscore c = false
  end.

(** The warnings still to come: one until the flag is set. *)
Definition budget (s : state) : nat := if ERROR_SHOWN s then 0 else 1.

(** The first call of [on_startup] that fails, in the order of the calls. *)
Definition first_startup_failure (tg : terragen) : option rpc_error :=
  match root tg with
  | Some e => Some e
  | None =>
      match get_param tg "current_frame" with
      | inl e => Some e
      | inr _ =>
          match get_param tg "start_frame" with
          | inl e => Some e
          | inr _ =>
              match get_param tg "end_frame" with
              | inl e => Some e
              | inr _ => None
              end
          end
      end
  end.

(** ** Auxiliary definitions for the further properties *)


Definition is_get_param (e : effect) : bool :=
  match e with
  | RpcGetParam _ => true
  | _ => false
  end.

(** The events that step the value: the arrow keys and the wheel. *)
Definition is_step (ev : event) : bool :=
  match ev with
  | Up | Down | MouseWheel _ => true
  | UserEdit _ | KeyRelease _ | Escape => false
  end.

(** What a step adds to the value; the wheel counts by the sign of its
    delta. *)
Definition step_delta (ev : event) : Z :=
  match ev with
  | Up => 1
  | Down => -1
  | MouseWheel delta => Z.sgn delta
  | UserEdit _ | KeyRelease _ | Escape => 0
  end.

Definition net_steps (evs : list event) : Z :=
  fold_right (fun ev total => step_delta ev + total) 0 evs.

Definition is_key_release (ev : event) : bool :=
  match ev with
  | KeyRelease _ => true
  | _ => false
  end.

Definition key_releases (evs : list event) : nat :=
  List.length (filter is_key_release evs).

(** A text of white space only; the empty text is one. *)
Definition blank (text : unicode) : bool :=
  forallb is_space_char text.

Definition not_underscore (c : ascii) : bool := negb (Py.is_underscore c).

(** The text without its underscores. *)
Definition drop_underscores (text : unicode) : unicode :=
  filter (fun c => negb (is_underscore_char c)) text.

(** An integer whose numeral [int] and [str] convert. *)
Definition fits (n : Z) : bool := (digits n <=? Py.max_str_digits)%nat.

(** What the wheel does with the stepped value: [str] and then the write,
    or the [ValueError] of [str] and no write. *)
Definition wheel_write (n : Z) (s : state)
  : outcome unit * state * list effect :=
  match Py.str n with
  | Some text => (Returned tt, set_current_frame_var text s, [])
  | None => (Raised ValueError, s, [])
  end.

(** Every value that a sequence of steps goes through from [n] fits. *)
Fixpoint steps_fit (n : Z) (evs : list event) : bool :=
  match evs with
  | [] => true
  | ev :: rest =>
      if (step_delta ev =? 0)%Z then steps_fit n rest
      else fits (n + step_delta ev) && steps_fit (n + step_delta ev) rest
  end.

(** The numeral of [count] nines, and the integer it spells. *)
Definition nines (count : nat) : unicode := repeat 57%N count.

Definition all_nines (count : nat) : Z := 10 ^ Z.of_nat count - 1.

(** The calls of [on_startup] in their order, and how many of them a server
    gets: those up to the first that fails. *)
Definition startup_calls : list effect :=
  [RpcRoot; RpcGetParam "current_frame"; RpcGetParam "start_frame";
   RpcGetParam "end_frame"].

Definition startup_calls_made (tg : terragen) : nat :=
  match root tg with
  | Some _ => 1
  | None =>
      match get_param tg "current_frame" with
      | inl _ => 2
      | inr _ =>
          match get_param tg "start_frame" with
          | inl _ => 3
          | inr _ => 4
          end
      end
  end.

(** * Properties *)

Example int_plain : Py.int "24" = Some 24.
Proof. reflexivity. Qed.

Example int_signed : Py.int "-7" = Some (-7) /\ Py.int "+7" = Some 7.
Proof. split; reflexivity. Qed.

Example int_padded : Py.int "  12 " = Some 12.
Proof. reflexivity. Qed.

Example int_grouped : Py.int "1_000" = Some 1000.
Proof. reflexivity. Qed.

Example int_rejects :
  Py.int "" = None /\ Py.int "abc" = None /\ Py.int "1__0" = None /\
  Py.int "_1" = None /\ Py.int "1_" = None /\ Py.int "- 1" = None /\
  Py.int "1.5" = None /\ Py.int "+" = None /\ Py.int "1 2" = None.
Proof. repeat split; reflexivity. Qed.

Example numeral_samples :
  numeral 0 = "0" /\ numeral 25 = "25" /\ numeral (-3) = "-3".
Proof. repeat split; reflexivity. Qed.

Example str_samples :
  Py.str 0 = Some (numeral 0) /\ Py.str (-3) = Some (unicode_of_string "-3").
Proof. split; reflexivity. Qed.

(** Digits and white space beyond ASCII: Arabic-Indic three, a no-break
    space, fullwidth digits; the superscript two is no decimal digit and the
    file separator no white space for [int]. *)
Example int_unicode :
  Py.int [1635%N] = Some 3 /\ Py.int [160; 55]%N = Some 7 /\
  Py.int [65297; 95; 1634]%N = Some 12 /\ Py.int [178%N] = None /\
  Py.int [28; 53]%N = None.
Proof. repeat split; reflexivity. Qed.

(** ** How each handler runs *)

Arguments Py.int : simpl never.
Arguments Py.str : simpl never.
Arguments numeral : simpl never.
Arguments Py.max_str_digits : simpl never.

Ltac run_handler :=
  unfold on_go_to, increase_value, decrease_value, on_mouse_wheel, on_escape,
    on_startup, is_valid_integer, tg_root, project_get_param,
    project_set_param, popup_warning, int, str;
  unfold bind, try_except, read, write, emit, ret, raise; cbn.

Lemma is_valid_integer_valid (value : unicode) (n : Z) (s : state) :
  Py.int value = Some n ->
  is_valid_integer value s = (Returned true, s, []).
Proof.
  intros H. unfold is_valid_integer, try_except, bind, int. rewrite H.
  reflexivity.
Qed.

Lemma is_valid_integer_invalid (value : unicode) (s : state) :
  Py.int value = None ->
  is_valid_integer value s =
    (Returned false,
     (if ERROR_SHOWN s then s else set_ERROR_SHOWN true s),
     (if ERROR_SHOWN s then [] else [invalid_input_popup])).
Proof.
  intros H. unfold is_valid_integer, try_except, bind, int. rewrite H.
  cbn. destruct (ERROR_SHOWN s); reflexivity.
Qed.

Lemma on_go_to_valid (tg : terragen) (s : state) (n : Z) :
  Py.int (current_frame_var s) = Some n ->
  on_go_to tg s =
    (Returned tt, set_ERROR_SHOWN false s,
     match root tg with
     | Some e => [RpcRoot; failure_popup e]
     | None =>
         match set_param tg "current_frame" n with
         | Some e => [RpcRoot; RpcSetParam "current_frame" n; failure_popup e]
         | None => [RpcRoot; RpcSetParam "current_frame" n]
         end
     end).
Proof.
  intros H. run_handler. rewrite H. cbn.
  destruct (root tg) as [[d|d|d|d]|]; cbn; try reflexivity.
  rewrite H. cbn. 
  destruct (set_param tg "current_frame" n) as [[d|d|d|d]|]; reflexivity.
Qed.

Lemma on_go_to_invalid (tg : terragen) (s : state) :
  Py.int (current_frame_var s) = None ->
  on_go_to tg s =
    (Returned tt,
     (if ERROR_SHOWN s then s else set_ERROR_SHOWN true s),
     (if ERROR_SHOWN s then [] else [invalid_input_popup])).
Proof.
  intros H. run_handler. rewrite H. cbn.
  destruct (ERROR_SHOWN s); reflexivity.
Qed.

Lemma increase_value_valid (s : state) (n : Z) :
  Py.int (current_frame_var s) = Some n ->
  increase_value s =
    (Returned tt, set_current_frame_var (numeral (n + 1)) s, []).
Proof.
  intros H. run_handler. rewrite H. reflexivity.
Qed.

Lemma decrease_value_valid (s : state) (n : Z) :
  Py.int (current_frame_var s) = Some n ->
  decrease_value s =
    (Returned tt, set_current_frame_var (numeral (n - 1)) s, []).
Proof.
  intros H. run_handler. rewrite H. reflexivity.
Qed.

Lemma step_invalid (s : state) :
  Py.int (current_frame_var s) = None ->
  increase_value s =
    (Returned tt,
     (if ERROR_SHOWN s then s else set_ERROR_SHOWN true s),
     (if ERROR_SHOWN s then [] else [invalid_input_popup]))
  /\ decrease_value s = increase_value s.
Proof.
  intros H. split; run_handler; rewrite H; cbn;
    destruct (ERROR_SHOWN s); reflexivity.
Qed.

Lemma on_mouse_wheel_valid (delta : Z) (s : state) (n : Z) :
  Py.int (current_frame_var s) = Some n ->
  on_mouse_wheel delta s =
    if (0 <? delta)%Z then wheel_write (n + 1) s
    else if (delta <? 0)%Z then wheel_write (n - 1) s
    else (Returned tt, s, []).
Proof.
  intros H. run_handler. rewrite H. unfold wheel_write.
  destruct (0 <? delta)%Z;
    [destruct (Py.str (n + 1)); reflexivity|].
  destruct (delta <? 0)%Z; [destruct (Py.str (n - 1)); reflexivity|].
  reflexivity.
Qed.

Lemma on_mouse_wheel_invalid (delta : Z) (s : state) :
  Py.int (current_frame_var s) = None ->
  on_mouse_wheel delta s =
    (Returned tt,
     (if ERROR_SHOWN s then s else set_ERROR_SHOWN true s),
     (if ERROR_SHOWN s then [Print "Invalid input"]
      else [invalid_input_popup; Print "Invalid input"])).
Proof.
  intros H. run_handler. rewrite H. cbn.
  destruct (ERROR_SHOWN s); reflexivity.
Qed.

Lemma on_escape_eq (s : state) :
  on_escape s =
    (Returned tt, set_current_frame_var (current_frame_at_startup s) s, []).
Proof. reflexivity. Qed.

Lemma on_startup_eq (tg : terragen) (s : state) :
  on_startup tg s =
    match root tg with
    | Some e => (Returned tt, s, [RpcRoot; failure_popup e])
    | None =>
        match get_param tg "current_frame" with
        | inl e =>
            (Returned tt, s,
             [RpcRoot; RpcGetParam "current_frame"; failure_popup e])
        | inr current =>
            let s1 :=
              set_current_frame_var (numeral current)
                (set_current_frame_at_startup (numeral current) s) in
            match get_param tg "start_frame" with
            | inl e =>
                (Returned tt, s1,
                 [RpcRoot; RpcGetParam "current_frame";
                  RpcGetParam "start_frame"; failure_popup e])
            | inr first =>
                let s2 := set_start_frame_var (numeral first) s1 in
                match get_param tg "end_frame" with
                | inl e =>
                    (Returned tt, s2,
                     [RpcRoot; RpcGetParam "current_frame";
                      RpcGetParam "start_frame"; RpcGetParam "end_frame";
                      failure_popup e])
                | inr last =>
                    (Returned tt, set_end_frame_var (numeral last) s2,
                     [RpcRoot; RpcGetParam "current_frame";
                      RpcGetParam "start_frame"; RpcGetParam "end_frame"])
                end
            end
        end
    end.
Proof.
  run_handler.
  destruct (root tg) as [[d|d|d|d]|]; cbn; try reflexivity.
  destruct (get_param tg "current_frame") as [[d|d|d|d]|current]; cbn;
    try reflexivity.
  destruct (get_param tg "start_frame") as [[d|d|d|d]|first]; cbn;
    try reflexivity.
  destruct (get_param tg "end_frame") as [[d|d|d|d]|last]; reflexivity.
Qed.

(** ** Scenarios of the specification *)

Example scenario_startup :
  startup (server_at 24) =
    (Returned tt, mkState "24" "24" "1" "100" false,
     [RpcRoot; RpcGetParam "current_frame"; RpcGetParam "start_frame";
      RpcGetParam "end_frame"]).
Proof. reflexivity. Qed.

Example scenario_session :
  run [Up; UserEdit "abc"; KeyRelease (server_at 24);
       UserEdit "30"; KeyRelease (server_at 24); Escape]
      (state_of (startup (server_at 24))) =
    (Returned tt, mkState "24" "24" "1" "100" false,
     [invalid_input_popup; RpcRoot; RpcSetParam "current_frame" 30]).
Proof. reflexivity. Qed.

Example scenario_up :
  state_of (run [Up] (state_of (startup (server_at 24)))) =
    mkState "24" "25" "1" "100" false.
Proof. reflexivity. Qed.

Example scenario_timeout :
  startup (server_down (TimeoutError "timed out")) =
    (Returned tt, mkState "" "1" "" "" false,
     [RpcRoot;
      Popup "tg_go_to_frame.py" "Terragen RPC timeout errortimed out"]).
Proof. reflexivity. Qed.

Example scenario_wheel_down :
  run [MouseWheel (-120)] (mkState "5" "5" "1" "100" false) =
    (Returned tt, mkState "5" "4" "1" "100" false, []).
Proof. reflexivity. Qed.

(** ** Character classes *)

Ltac char_class :=
  unfold Py.is_digit, Py.is_space, Py.is_underscore in *;
  repeat match goal with
  | H : _ && _ = true |- _ => apply andb_true_iff in H; destruct H
  | H : _ || _ = true |- _ => apply orb_true_iff in H; destruct H
  | H : (_ <=? _)%nat = true |- _ => apply Nat.leb_le in H
  | H : (_ =? _)%nat = true |- _ => apply Nat.eqb_eq in H
  end.

Lemma digit_not_space (c : ascii) :
  Py.is_digit c = true -> Py.is_space c = false.
Proof.
  intros H. destruct (Py.is_space c) eqn:E; [|reflexivity].
  char_class; lia.
Qed.

Lemma digit_not_underscore (c : ascii) :
  Py.is_digit c = true -> Py.is_underscore c = false.
Proof.
  intros H. destruct (Py.is_underscore c) eqn:E; [|reflexivity].
  char_class; lia.
Qed.

Lemma underscore_not_digit (c : ascii) :
  Py.is_underscore c = true -> Py.is_digit c = false.
Proof.
  intros H. destruct (Py.is_digit c) eqn:E; [|reflexivity].
  char_class; lia.
Qed.

Lemma space_not_digit (c : ascii) :
  Py.is_space c = true -> Py.is_digit c = false.
Proof.
  intros H. destruct (Py.is_digit c) eqn:E; [|reflexivity].
  char_class; lia.
Qed.

Lemma space_not_underscore (c : ascii) :
  Py.is_space c = true -> Py.is_underscore c = false.
Proof.
  intros H. destruct (Py.is_underscore c) eqn:E; [|reflexivity].
  char_class; lia.
Qed.

Lemma digit_not_sign (c : ascii) (r : list ascii) :
  Py.is_digit c = true -> Py.take_sign (c :: r) = (false, c :: r).
Proof.
  intros H. unfold Py.take_sign.
  destruct (nat_of_ascii c =? 43)%nat eqn:E1; [char_class; lia|].
  destruct (nat_of_ascii c =? 45)%nat eqn:E2; [char_class; lia|].
  reflexivity.
Qed.

(** ** White space *)

Lemma skip_space_all (l : list ascii) :
  Py.skip_space l = [] <-> Forall (fun c => Py.is_space c = true) l.
Proof.
  induction l as [|c r IH]; cbn.
  - split; [constructor | reflexivity].
  - destruct (Py.is_space c) eqn:E.
    + rewrite IH. split; [intros H; constructor; assumption|].
      intros H. inversion H; assumption.
    + split; [discriminate|]. intros H. inversion H; congruence.
Qed.

Lemma skip_space_app (lead l : list ascii) :
  Forall (fun c => Py.is_space c = true) lead ->
  Py.skip_space (lead ++ l) = Py.skip_space l.
Proof.
  induction 1 as [|c r Hc _ IH]; cbn; [reflexivity|].
  rewrite Hc. exact IH.
Qed.

Lemma skip_space_split (l : list ascii) :
  exists lead,
    l = (lead ++ Py.skip_space l)%list /\
    Forall (fun c => Py.is_space c = true) lead.
Proof.
  induction l as [|c r [lead [E F]]]; cbn.
  - exists []. split; [reflexivity | constructor].
  - destruct (Py.is_space c) eqn:Hc.
    + exists (c :: lead). split; [cbn; congruence | constructor; assumption].
    + exists []. split; [reflexivity | constructor].
Qed.

Lemma take_sign_split (l : list ascii) :
  exists sign, l = (sign ++ snd (Py.take_sign l))%list /\ ascii_sign sign.
Proof.
  destruct l as [|c r]; cbn.
  - exists []. split; [reflexivity | left; reflexivity].
  - destruct (nat_of_ascii c =? 43)%nat eqn:E1.
    + apply Nat.eqb_eq in E1. exists ["+"%char]. split.
      * cbn. f_equal. rewrite <- (ascii_nat_embedding c), E1. reflexivity.
      * right; left; reflexivity.
    + destruct (nat_of_ascii c =? 45)%nat eqn:E2.
      * apply Nat.eqb_eq in E2. exists ["-"%char]. split.
        -- cbn. f_equal. rewrite <- (ascii_nat_embedding c), E2. reflexivity.
        -- right; right; reflexivity.
      * exists []. split; [reflexivity | left; reflexivity].
Qed.

(** ** The digit scan and the digit groups *)

Lemma scan_digits_stop (acc : Z) (rest : list ascii) :
  scan_stop rest -> Py.scan_digits false acc rest = Some (acc, rest).
Proof.
  destruct rest as [|c r]; cbn; [reflexivity|].
  intros [Hd Hu]. rewrite Hd, Hu. reflexivity.
Qed.

Lemma scan_digits_groups (body : list ascii) :
  digit_groups Py.is_digit Py.is_underscore body ->
  forall (rest : list ascii) (prev : bool) (acc : Z),
    scan_stop rest ->
    exists n, Py.scan_digits prev acc (body ++ rest) = Some (n, rest).
Proof.
  induction 1 as [c Hc | c r Hc _ IH | c u r Hc Hu _ IH];
    intros rest prev acc Hstop; cbn; rewrite Hc.
  - eexists. apply scan_digits_stop. exact Hstop.
  - apply IH. exact Hstop.
  - rewrite (underscore_not_digit u Hu), Hu. apply IH. exact Hstop.
Qed.

Lemma scan_digits_inv (l : list ascii) :
  forall (acc n : Z) (rest : list ascii),
    (forall d, Py.is_digit d = true ->
       Py.scan_digits false acc l = Some (n, rest) ->
       exists body,
         l = (body ++ rest)%list /\ digit_groups Py.is_digit Py.is_underscore (d :: body) /\ scan_stop rest)
    /\ (Py.scan_digits true acc l = Some (n, rest) ->
        exists body,
          l = (body ++ rest)%list /\ digit_groups Py.is_digit Py.is_underscore body /\ scan_stop rest).
Proof.
  induction l as [|c r IH]; intros acc n rest.
  - split.
    + intros d Hd H. cbn in H. inversion H; subst. exists [].
      repeat split. constructor; exact Hd.
    + cbn. discriminate.
  - cbn. destruct (Py.is_digit c) eqn:Hc.
    + destruct (IH (10 * acc + Py.digit_value c) n rest) as [IHf _].
      split.
      * intros d Hd H. destruct (IHf c Hc H) as [body [E [G S]]].
        exists (c :: body). repeat split; [cbn; congruence | | exact S].
        apply dg_digit; assumption.
      * intros H. destruct (IHf c Hc H) as [body [E [G S]]].
        exists (c :: body). repeat split; [cbn; congruence | exact G | exact S].
    + destruct (Py.is_underscore c) eqn:Hu.
      * split; [|discriminate].
        intros d Hd H. destruct (IH acc n rest) as [_ IHt].
        destruct (IHt H) as [body [E [G S]]].
        exists (c :: body). repeat split; [cbn; congruence | | exact S].
        apply dg_group; assumption.
      * split; [|discriminate].
        intros d Hd H. inversion H; subst. exists [].
        repeat split; [constructor; exact Hd | exact Hc | exact Hu].
Qed.

Lemma digit_groups_head (body : list ascii) :
  digit_groups Py.is_digit Py.is_underscore body ->
  exists c r, body = c :: r /\ Py.is_digit c = true.
Proof.
  destruct 1; eexists; eexists; split; try reflexivity; assumption.
Qed.

(** ** [int] accepts exactly the integer literals *)

Lemma count_digits_stop (rest : list ascii) :
  scan_stop rest -> Py.count_digits rest = 0%nat.
Proof.
  destruct rest as [|c r]; cbn; [reflexivity|].
  intros [Hd Hu]. rewrite Hd, Hu. reflexivity.
Qed.

Lemma count_digits_groups (body rest : list ascii) :
  digit_groups Py.is_digit Py.is_underscore body ->
  scan_stop rest ->
  Py.count_digits (body ++ rest) = List.length (filter Py.is_digit body).
Proof.
  intros Hbody Hstop.
  induction Hbody as [c Hc | c r Hc _ IH | c u r Hc Hu _ IH];
    cbn [app Py.count_digits filter]; rewrite Hc; cbn [List.length].
  - rewrite (count_digits_stop rest Hstop). reflexivity.
  - rewrite IH. reflexivity.
  - rewrite (underscore_not_digit u Hu), Hu, IH. reflexivity.
Qed.

Lemma spaces_stop (trail : list ascii) :
  Forall (fun c => Py.is_space c = true) trail -> scan_stop trail.
Proof.
  intros Htrail. destruct Htrail as [|t ts Ht _]; cbn; [exact I|].
  split; [apply space_not_digit | apply space_not_underscore]; exact Ht.
Qed.

Lemma magnitude_literal (negative : bool) (body trail : list ascii) :
  digit_groups Py.is_digit Py.is_underscore body ->
  (List.length (filter Py.is_digit body) <= Py.max_str_digits)%nat ->
  Forall (fun c => Py.is_space c = true) trail ->
  exists n, Py.magnitude negative (body ++ trail) = Some n.
Proof.
  intros Hbody Hcap Htrail.
  destruct (digit_groups_head body Hbody) as [c [r [Eb Hc]]].
  pose proof (spaces_stop trail Htrail) as Hstop.
  destruct (scan_digits_groups body Hbody trail false 0 Hstop) as [n En].
  unfold Py.magnitude.
  rewrite (count_digits_groups body trail Hbody Hstop), En.
  apply Nat.ltb_ge in Hcap. rewrite Hcap.
  subst body. cbn [app]. rewrite Hc.
  apply skip_space_all in Htrail. rewrite Htrail. eexists; reflexivity.
Qed.

Lemma int_of_chars_literal (lead sign body trail : list ascii) :
  Forall (fun c => Py.is_space c = true) lead ->
  ascii_sign sign ->
  digit_groups Py.is_digit Py.is_underscore body ->
  (List.length (filter Py.is_digit body) <= Py.max_str_digits)%nat ->
  Forall (fun c => Py.is_space c = true) trail ->
  exists n, Py.int_of_chars (lead ++ sign ++ body ++ trail) = Some n.
Proof.
  intros Hlead Hsign Hbody Hcap Htrail.
  unfold Py.int_of_chars. rewrite skip_space_app by exact Hlead.
  destruct Hsign as [E | [E | E]]; subst sign; cbn [app].
  - destruct (digit_groups_head body Hbody) as [c [r [Eb Hc]]].
    pose proof (magnitude_literal false body trail Hbody Hcap Htrail) as Hm.
    subst body. cbn [app Py.skip_space] in *.
    rewrite (digit_not_space c Hc), (digit_not_sign c _ Hc). exact Hm.
  - cbn. apply magnitude_literal; assumption.
  - cbn. apply magnitude_literal; assumption.
Qed.

Lemma magnitude_inv (negative : bool) (l : list ascii) (n : Z) :
  Py.magnitude negative l = Some n ->
  exists body trail,
    l = (body ++ trail)%list /\
    digit_groups Py.is_digit Py.is_underscore body /\
    (List.length (filter Py.is_digit body) <= Py.max_str_digits)%nat /\
    Forall (fun c => Py.is_space c = true) trail.
Proof.
  unfold Py.magnitude. destruct l as [|c r]; [discriminate|].
  destruct (Py.is_digit c) eqn:Hc; [|discriminate].
  destruct (Py.max_str_digits <? Py.count_digits (c :: r))%nat eqn:Hcap;
    [discriminate|].
  destruct (Py.scan_digits false 0 (c :: r)) as [[m rest]|] eqn:Es;
    [|discriminate].
  destruct (Py.skip_space rest) eqn:Et; [|discriminate].
  intros _. cbn [Py.scan_digits] in Es. rewrite Hc in Es.
  destruct (scan_digits_inv r (10 * 0 + Py.digit_value c) m rest) as [Hf _].
  destruct (Hf c Hc Es) as [body [E [G S]]].
  exists (c :: body), rest.
  assert (El : (c :: r) = ((c :: body) ++ rest)%list) by (cbn; congruence).
  split; [exact El|]. split; [exact G|]. split.
  - apply Nat.ltb_ge in Hcap. rewrite El in Hcap.
    rewrite (count_digits_groups _ _ G S) in Hcap. exact Hcap.
  - apply skip_space_all. exact Et.
Qed.

Lemma ascii_literal_iff (l : list ascii) :
  (exists n, Py.int_of_chars l = Some n) <-> ascii_literal l.
Proof.
  unfold ascii_literal. split.
  - intros [n H]. unfold Py.int_of_chars in H.
    destruct (skip_space_split l) as [lead [El Hl]].
    destruct (take_sign_split (Py.skip_space l)) as [sign [Es Hs]].
    destruct (Py.take_sign (Py.skip_space l)) as [negative l1].
    cbn [snd] in Es.
    destruct (magnitude_inv negative l1 n H) as [body [trail [Eb [G [C T]]]]].
    exists lead, sign, body, trail. repeat split; try assumption.
    rewrite El at 1. rewrite Es. rewrite Eb. reflexivity.
  - intros [lead [sign [body [trail [E [Hl [Hs [G [C T]]]]]]]]].
    rewrite E. apply int_of_chars_literal; assumption.
Qed.

(** ** Characters beyond ASCII *)

Lemma unicode_space_high (c : N) :
  Py.unicode_space c = true -> (127 <= c)%N.
Proof.
  unfold Py.unicode_space. intros H. apply existsb_exists in H.
  destruct H as [x [Hin Hx]]. apply N.eqb_eq in Hx. subst x.
  assert (Hall : forallb (fun x => (127 <=? x)%N) Py.unicode_spaces = true)
    by reflexivity.
  rewrite forallb_forall in Hall. apply N.leb_le. apply Hall. exact Hin.
Qed.

Lemma unicode_decimal_range (c d : N) :
  Py.unicode_decimal c = Some d -> (127 <= c)%N /\ (d < 10)%N.
Proof.
  unfold Py.unicode_decimal.
  destruct (find (fun z => (z <=? c)%N && (c <? z + 10)%N) Py.unicode_zeros)
    as [z|] eqn:F; [|discriminate].
  intros H. injection H as <-. apply find_some in F.
  destruct F as [Hin Hz]. apply andb_true_iff in Hz.
  destruct Hz as [Hlo Hhi]. apply N.leb_le in Hlo. apply N.ltb_lt in Hhi.
  assert (Hall : forallb (fun x => (127 <=? x)%N) Py.unicode_zeros = true)
    by reflexivity.
  rewrite forallb_forall in Hall. specialize (Hall z Hin).
  apply N.leb_le in Hall. lia.
Qed.

Lemma unicode_space_not_decimal (c : N) :
  Py.unicode_space c = true -> Py.unicode_decimal c = None.
Proof.
  unfold Py.unicode_space. intros H. apply existsb_exists in H.
  destruct H as [x [Hin Hx]]. apply N.eqb_eq in Hx. subst x.
  assert (Hall :
    forallb
      (fun x => match Py.unicode_decimal x with Some _ => false | None => true end)
      Py.unicode_spaces = true) by reflexivity.
  rewrite forallb_forall in Hall. specialize (Hall c Hin).
  destruct (Py.unicode_decimal c); [discriminate | reflexivity].
Qed.

(** The code of the character that [int] parses in place of [c]. *)
Lemma to_ascii_code (c : N) :
  N_of_ascii (Py.to_ascii c) =
    if (c <? 127)%N then c
    else if Py.unicode_space c then 32%N
    else
      match Py.unicode_decimal c with
      | Some d => (48 + d)%N
      | None => 63%N
      end.
Proof.
  unfold Py.to_ascii. destruct (N.ltb_spec c 127) as [Hlow|Hhigh].
  - apply N_ascii_embedding. lia.
  - destruct (Py.unicode_space c); [reflexivity|].
    destruct (Py.unicode_decimal c) as [d|] eqn:Hd; [|reflexivity].
    apply unicode_decimal_range in Hd. apply N_ascii_embedding. lia.
Qed.

Ltac bool_to_prop :=
  repeat match goal with
  | H : _ && _ = true |- _ => apply andb_true_iff in H; destruct H
  | H : _ || _ = true |- _ => apply orb_true_iff in H; destruct H
  | H : (_ <=? _)%nat = true |- _ => apply Nat.leb_le in H
  | H : (_ =? _)%nat = true |- _ => apply Nat.eqb_eq in H
  | H : (_ <=? _)%N = true |- _ => apply N.leb_le in H
  | H : (_ <? _)%N = true |- _ => apply N.ltb_lt in H
  | H : (_ =? _)%N = true |- _ => apply N.eqb_eq in H
  | H : (_ <=? _)%nat = false |- _ => apply Nat.leb_gt in H
  | H : (_ =? _)%nat = false |- _ => apply Nat.eqb_neq in H
  | H : (_ <=? _)%N = false |- _ => apply N.leb_gt in H
  | H : (_ <? _)%N = false |- _ => apply N.ltb_ge in H
  | H : (_ =? _)%N = false |- _ => apply N.eqb_neq in H
  end.

(** Decide an equation between two tests on a character from the code
    that [to_ascii] gives it. *)
Ltac by_code c :=
  let code := fresh "code" in
  let Hcode := fresh "Hcode" in
  pose proof (to_ascii_code c) as Hcode;
  unfold Py.is_space, Py.is_digit, Py.is_underscore, nat_of_ascii,
    is_space_char, is_digit_char, is_underscore_char, is_sign_char;
  set (code := N_of_ascii (Py.to_ascii c)) in *;
  destruct (c <? 127)%N eqn:Hlow;
    [ subst code; rewrite Hcode;
      assert (Py.unicode_space c = false)
        by (destruct (Py.unicode_space c) eqn:Hs; [|reflexivity];
            apply unicode_space_high in Hs; bool_to_prop; lia);
      assert (Py.unicode_decimal c = None)
        by (destruct (Py.unicode_decimal c) eqn:Hd; [|reflexivity];
            apply unicode_decimal_range in Hd; bool_to_prop; lia)
    | destruct (Py.unicode_space c) eqn:Hs;
      [ pose proof (unicode_space_not_decimal c Hs)
      | destruct (Py.unicode_decimal c) as [d|] eqn:Hd;
        [ apply unicode_decimal_range in Hd | ] ] ];
  repeat match goal with
  | H : Py.unicode_space c = _ |- _ => rewrite H
  | H : Py.unicode_decimal c = _ |- _ => rewrite H
  end;
  try (subst code; rewrite Hcode);
  repeat match goal with
  | |- context [(?a <=? ?b)%nat] => destruct (a <=? b)%nat eqn:?
  | |- context [(?a =? ?b)%nat] => destruct (a =? b)%nat eqn:?
  | |- context [(?a <=? ?b)%N] => destruct (a <=? b)%N eqn:?
  | |- context [(?a =? ?b)%N] => destruct (a =? b)%N eqn:?
  end;
  bool_to_prop; try reflexivity; cbn; try reflexivity; try lia.

Lemma to_ascii_space (c : N) :
  Py.is_space (Py.to_ascii c) = is_space_char c.
Proof. by_code c. Qed.

Lemma to_ascii_digit (c : N) :
  Py.is_digit (Py.to_ascii c) = is_digit_char c.
Proof. by_code c. Qed.

Lemma to_ascii_underscore (c : N) :
  Py.is_underscore (Py.to_ascii c) = is_underscore_char c.
Proof. by_code c. Qed.

Lemma to_ascii_plus (c : N) :
  (nat_of_ascii (Py.to_ascii c) =? 43)%nat = (c =? 43)%N.
Proof. by_code c. Qed.

Lemma to_ascii_minus (c : N) :
  (nat_of_ascii (Py.to_ascii c) =? 45)%nat = (c =? 45)%N.
Proof. by_code c. Qed.

(** ** The grammar on the text and on the characters parsed *)

Lemma spaces_of_text (l : unicode) :
  Forall (fun c => Py.is_space c = true) (map Py.to_ascii l) <->
  Forall (fun c => is_space_char c = true) l.
Proof.
  rewrite Forall_map. split; apply Forall_impl; intros c H;
    [rewrite <- to_ascii_space | rewrite to_ascii_space]; exact H.
Qed.

Lemma digits_of_text (l : unicode) :
  List.length (filter Py.is_digit (map Py.to_ascii l)) =
  List.length (filter is_digit_char l).
Proof.
  induction l as [|c r IH]; [reflexivity|].
  cbn [map filter]. rewrite to_ascii_digit.
  destruct (is_digit_char c); cbn [List.length]; rewrite IH; reflexivity.
Qed.

Lemma groups_to_ascii (body : unicode) :
  digit_groups is_digit_char is_underscore_char body ->
  digit_groups Py.is_digit Py.is_underscore (map Py.to_ascii body).
Proof.
  induction 1 as [c Hc | c r Hc _ IH | c u r Hc Hu _ IH]; cbn [map].
  - apply dg_last. rewrite to_ascii_digit. exact Hc.
  - apply dg_digit; [rewrite to_ascii_digit; exact Hc | exact IH].
  - apply dg_group;
      [rewrite to_ascii_digit; exact Hc
      | rewrite to_ascii_underscore; exact Hu | exact IH].
Qed.

Lemma groups_of_ascii (l : list ascii) :
  digit_groups Py.is_digit Py.is_underscore l ->
  forall body : unicode,
    l = map Py.to_ascii body ->
    digit_groups is_digit_char is_underscore_char body.
Proof.
  induction 1 as [c Hc | c r Hc _ IH | c u r Hc Hu _ IH]; intros body E.
  - destruct body as [|b [|b1 body]]; try discriminate E.
    injection E as ->. apply dg_last. rewrite <- to_ascii_digit. exact Hc.
  - destruct body as [|b body]; [discriminate E|].
    injection E as -> Er. apply dg_digit;
      [rewrite <- to_ascii_digit; exact Hc | apply IH; exact Er].
  - destruct body as [|b [|b1 body]]; try discriminate E.
    injection E as -> -> Er. apply dg_group;
      [rewrite <- to_ascii_digit; exact Hc
      | rewrite <- to_ascii_underscore; exact Hu | apply IH; exact Er].
Qed.

Lemma sign_to_ascii (sign : unicode) :
  is_sign sign -> ascii_sign (map Py.to_ascii sign).
Proof.
  intros [E | [E | E]]; subst sign;
    [left | right; left | right; right]; reflexivity.
Qed.

Lemma sign_of_ascii (sign : unicode) :
  ascii_sign (map Py.to_ascii sign) -> is_sign sign.
Proof.
  intros [E | [E | E]].
  - left. destruct sign; [reflexivity | discriminate E].
  - right; left. destruct sign as [|c [|c1 r]]; try discriminate E.
    injection E as E. f_equal. apply N.eqb_eq.
    rewrite <- to_ascii_plus, E. reflexivity.
  - right; right. destruct sign as [|c [|c1 r]]; try discriminate E.
    injection E as E. f_equal. apply N.eqb_eq.
    rewrite <- to_ascii_minus, E. reflexivity.
Qed.

Lemma int_literal_iff (text : unicode) :
  (exists n, Py.int text = Some n) <-> int_literal text.
Proof.
  unfold Py.int. rewrite ascii_literal_iff. unfold ascii_literal, int_literal.
  split.
  - intros [lead [sign [body [trail [E [Hl [Hs [G [C T]]]]]]]]].
    apply map_eq_app in E. destruct E as [tl [t1 [-> [<- E]]]].
    apply map_eq_app in E. destruct E as [ts [t2 [-> [<- E]]]].
    apply map_eq_app in E. destruct E as [tb [tt [-> [<- <-]]]].
    exists tl, ts, tb, tt. split; [reflexivity|].
    split; [apply spaces_of_text; exact Hl|].
    split; [apply sign_of_ascii; exact Hs|].
    split; [apply (groups_of_ascii _ G); reflexivity|].
    split; [rewrite <- digits_of_text; exact C|].
    apply spaces_of_text. exact T.
  - intros [lead [sign [body [trail [E [Hl [Hs [G [C T]]]]]]]]].
    exists (map Py.to_ascii lead), (map Py.to_ascii sign),
      (map Py.to_ascii body), (map Py.to_ascii trail).
    split; [rewrite E, !map_app; reflexivity|].
    split; [apply spaces_of_text; exact Hl|].
    split; [apply sign_to_ascii; exact Hs|].
    split; [apply groups_to_ascii; exact G|].
    split; [rewrite digits_of_text; exact C|].
    apply spaces_of_text. exact T.
Qed.
(** ** [int] reads back the numerals *)

Lemma scan_digit_step (c : ascii) (prev : bool) (acc : Z) (r : list ascii) :
  Py.is_digit c = true ->
  Py.scan_digits prev acc (c :: r) =
  Py.scan_digits false (10 * acc + Py.digit_value c) r.
Proof. intros H. cbn [Py.scan_digits]. rewrite H. reflexivity. Qed.

Ltac scan_one_digit :=
  cbn [NilEmpty.string_of_uint list_ascii_of_string];
  rewrite scan_digit_step by reflexivity;
  match goal with
  | |- Py.scan_digits false (10 * ?a + Py.digit_value ?c) _ = _ =>
      let v := eval vm_compute in (Py.digit_value c) in
      change (Py.digit_value c) with v
  end.

Lemma scan_uint_acc (d : Decimal.uint) (p : positive) :
  Py.scan_digits false (Z.pos p)
    (list_ascii_of_string (NilEmpty.string_of_uint d)) =
  Some (Z.pos (Pos.of_uint_acc d p), []).
Proof.
  revert p. induction d; intros p; [reflexivity | ..]; scan_one_digit;
    cbn [Pos.of_uint_acc];
    match goal with
    | |- Py.scan_digits false ?a _ = Some (Z.pos (Pos.of_uint_acc _ ?q), _) =>
        replace a with (Z.pos q) by lia
    end; apply IHd.
Qed.

Lemma scan_uint (d : Decimal.uint) :
  Py.scan_digits false 0
    (list_ascii_of_string (NilEmpty.string_of_uint d)) =
  Some (Z.of_N (Pos.of_uint d), []).
Proof.
  induction d; [reflexivity | ..]; scan_one_digit; cbn [Pos.of_uint];
    [exact IHd | ..]; apply scan_uint_acc.
Qed.

Lemma uint_head_digit (d : Decimal.uint) :
  d <> Decimal.Nil ->
  exists c r,
    list_ascii_of_string (NilEmpty.string_of_uint d) = c :: r /\
    Py.is_digit c = true.
Proof.
  destruct d; intros H; [congruence | ..];
    eexists; eexists; split; reflexivity.
Qed.

Lemma count_uint (d : Decimal.uint) :
  Py.count_digits (list_ascii_of_string (NilEmpty.string_of_uint d)) =
  Decimal.nb_digits d.
Proof.
  induction d; [reflexivity | ..];
    cbn [NilEmpty.string_of_uint list_ascii_of_string Py.count_digits
         Decimal.nb_digits];
    match goal with
    | |- (if Py.is_digit ?c then _ else _) = _ =>
        change (Py.is_digit c) with true; cbv iota
    end; rewrite IHd; reflexivity.
Qed.

Lemma int_of_chars_minus (l : list ascii) :
  Py.int_of_chars ("-"%char :: l) = Py.magnitude true l.
Proof. reflexivity. Qed.

Lemma int_of_chars_digit (c : ascii) (r : list ascii) :
  Py.is_digit c = true ->
  Py.int_of_chars (c :: r) = Py.magnitude false (c :: r).
Proof.
  intros Hc. unfold Py.int_of_chars. cbn [Py.skip_space].
  rewrite (digit_not_space c Hc), (digit_not_sign c r Hc). reflexivity.
Qed.

Lemma magnitude_uint (negative : bool) (d : Decimal.uint) :
  d <> Decimal.Nil ->
  Py.magnitude negative (list_ascii_of_string (NilEmpty.string_of_uint d)) =
    if (Py.max_str_digits <? Decimal.nb_digits d)%nat then None
    else
      Some (if negative then - Z.of_N (Pos.of_uint d)
            else Z.of_N (Pos.of_uint d)).
Proof.
  intros Hnil. unfold Py.magnitude. rewrite scan_uint, count_uint.
  destruct (uint_head_digit d Hnil) as [c [r [E Hc]]].
  rewrite E, Hc. reflexivity.
Qed.

Lemma string_of_uint_nonnil (d : Decimal.uint) :
  d <> Decimal.Nil ->
  NilZero.string_of_uint d = NilEmpty.string_of_uint d.
Proof. destruct d; [congruence | reflexivity ..]. Qed.

(** The characters of a numeral are ASCII: [int] parses them as they
    are. *)
Lemma to_ascii_uint (d : Decimal.uint) :
  map Py.to_ascii (unicode_of_string (NilEmpty.string_of_uint d)) =
  list_ascii_of_string (NilEmpty.string_of_uint d).
Proof.
  unfold unicode_of_string.
  induction d; [reflexivity | ..];
    cbn [NilEmpty.string_of_uint list_ascii_of_string map];
    rewrite IHd; reflexivity.
Qed.

Lemma int_numeral (n : Z) :
  Py.int (numeral n) =
    if (Py.max_str_digits <? digits n)%nat then None else Some n.
Proof.
  unfold Py.int, numeral, digits. destruct n as [|p|p]; [reflexivity | ..];
    pose proof (DecimalPos.Unsigned.to_uint_nonnil p) as Hnil;
    cbn [Z.to_int NilZero.string_of_int];
    rewrite (string_of_uint_nonnil _ Hnil).
  - rewrite to_ascii_uint.
    destruct (uint_head_digit _ Hnil) as [c [r [E Hc]]].
    rewrite E, (int_of_chars_digit c r Hc), <- E.
    rewrite (magnitude_uint false _ Hnil), DecimalPos.Unsigned.of_to.
    reflexivity.
  - change (unicode_of_string
              (String "-" (NilEmpty.string_of_uint (Pos.to_uint p))))
      with (45%N :: unicode_of_string
                       (NilEmpty.string_of_uint (Pos.to_uint p))).
    cbn [map]. rewrite to_ascii_uint.
    change (Py.to_ascii 45) with "-"%char. rewrite int_of_chars_minus.
    rewrite (magnitude_uint true _ Hnil), DecimalPos.Unsigned.of_to.
    reflexivity.
Qed.

Lemma fits_int_numeral (n : Z) :
  fits n = true -> Py.int (numeral n) = Some n.
Proof.
  unfold fits. intros H. rewrite int_numeral.
  apply Nat.leb_le in H. apply Nat.ltb_ge in H. rewrite H. reflexivity.
Qed.

Lemma str_fits (n : Z) :
  Py.str n = if fits n then Some (numeral n) else None.
Proof.
  unfold Py.str, fits.
  destruct (Nat.ltb_spec Py.max_str_digits (digits n)) as [H|H].
  - apply Nat.leb_gt in H. rewrite H. reflexivity.
  - apply Nat.leb_le in H. rewrite H. reflexivity.
Qed.

Lemma digits_groups (c : N) (r : unicode) :
  forallb is_digit_char (c :: r) = true ->
  digit_groups is_digit_char is_underscore_char (c :: r).
Proof.
  revert c. induction r as [|c' r IH]; intros c H;
    cbn [forallb] in H; apply andb_true_iff in H; destruct H as [Hc H].
  - apply dg_last. exact Hc.
  - apply dg_digit; [exact Hc | apply IH; exact H].
Qed.

Lemma all_digits_filter (l : unicode) :
  forallb is_digit_char l = true -> filter is_digit_char l = l.
Proof.
  induction l as [|c r IH]; [reflexivity|]. cbn [forallb filter].
  intros H. apply andb_true_iff in H. destruct H as [Hc H].
  rewrite Hc, (IH H). reflexivity.
Qed.

Lemma drop_sign_split (text : unicode) :
  exists sign, text = (sign ++ drop_sign text)%list /\ is_sign sign.
Proof.
  destruct text as [|c r]; cbn [drop_sign].
  - exists []. split; [reflexivity | left; reflexivity].
  - unfold is_sign_char. destruct (N.eqb_spec c 43) as [->|_].
    + exists [43%N]. split; [reflexivity | right; left; reflexivity].
    + destruct (N.eqb_spec c 45) as [->|_].
      * exists [45%N]. split; [reflexivity | right; right; reflexivity].
      * exists []. split; [reflexivity | left; reflexivity].
Qed.

Lemma signed_decimal_literal (text : unicode) :
  is_signed_decimal text = true ->
  (List.length (drop_sign text) <= Py.max_str_digits)%nat ->
  int_literal text.
Proof.
  unfold is_signed_decimal, int_literal. intros H Hcap.
  destruct (drop_sign_split text) as [sign [E Hs]].
  destruct (drop_sign text) as [|c r] eqn:Ed; [discriminate|].
  exists [], sign, (c :: r), []. rewrite app_nil_r. cbn [app].
  split; [exact E|]. split; [constructor|]. split; [exact Hs|].
  split; [apply digits_groups; exact H|].
  split; [rewrite (all_digits_filter _ H); exact Hcap | constructor].
Qed.
(** ** Runs of the event loop *)

Lemma callback_eq (m : M unit) (s : state) :
  callback m s = (Returned tt, state_of (m s), log_of (m s)).
Proof. unfold callback. destruct (m s) as [[r s1] log1]. reflexivity. Qed.

Lemma run_cons (ev : event) (rest : list event) (s : state) :
  run (ev :: rest) s =
    (result_of (run rest (state_of (dispatch ev s))),
     state_of (run rest (state_of (dispatch ev s))),
     (log_of (dispatch ev s)
      ++ log_of (run rest (state_of (dispatch ev s))))%list).
Proof.
  cbn [run]. unfold bind. rewrite callback_eq.
  destruct (run rest (state_of (dispatch ev s))) as [[r s2] log2].
  reflexivity.
Qed.

Lemma valid_text_true (s : state) :
  valid_text s = true <-> exists n, Py.int (current_frame_var s) = Some n.
Proof.
  unfold valid_text. destruct (Py.int (current_frame_var s)) as [n|].
  - split; [eexists; reflexivity | reflexivity].
  - split; [discriminate | intros [n H]; discriminate].
Qed.

Lemma valid_text_false (s : state) :
  valid_text s = false <-> Py.int (current_frame_var s) = None.
Proof.
  unfold valid_text. destruct (Py.int (current_frame_var s)) as [n|].
  - split; discriminate.
  - split; reflexivity.
Qed.

(** Case analysis on the event and on the validity of the text, each
    handler replaced by its equation. *)
Ltac handler_cases ev s :=
  let n := fresh "n" in
  let E := fresh "E" in
  destruct (Py.int (current_frame_var s)) as [n|] eqn:E;
  destruct ev as [? | ? | | | ? | ]; cbn [dispatch];
  rewrite ?on_escape_eq;
  [ | rewrite (on_go_to_valid _ _ _ E)
    | rewrite (increase_value_valid _ _ E)
    | rewrite (decrease_value_valid _ _ E)
    | rewrite (on_mouse_wheel_valid _ _ _ E) |
    | | rewrite (on_go_to_invalid _ _ E)
    | rewrite (proj1 (step_invalid _ E))
    | rewrite (proj2 (step_invalid _ E)), (proj1 (step_invalid _ E))
    | rewrite (on_mouse_wheel_invalid _ _ E) | ];
  unfold wheel_write.

(** Split the tests the handler equations leave: the flag, the sign of the
    wheel's delta, whether [str] returns. *)
Ltac split_tests :=
  repeat match goal with
  | |- context [match Py.str ?n with Some _ => _ | None => _ end] =>
      destruct (Py.str n)
  | |- context [match ?x with Some _ => _ | None => _ end] => destruct x
  | |- context [if ?b then _ else _] => destruct b
  end.

Lemma snapshot_preserved (ev : event) (s : state) :
  current_frame_at_startup (state_of (dispatch ev s)) =
  current_frame_at_startup s.
Proof.
  handler_cases ev s; cbn; try reflexivity; split_tests; reflexivity.
Qed.

Lemma run_snapshot_preserved (evs : list event) (s : state) :
  current_frame_at_startup (state_of (run evs s)) =
  current_frame_at_startup s.
Proof.
  revert s. induction evs as [|ev rest IH]; intros s; [reflexivity|].
  rewrite run_cons. unfold state_of at 1. cbn [fst snd].
  rewrite IH. apply snapshot_preserved.
Qed.

Lemma invalid_input_popups_app (a b : list effect) :
  invalid_input_popups (a ++ b) =
  (invalid_input_popups a + invalid_input_popups b)%nat.
Proof.
  unfold invalid_input_popups. rewrite filter_app, length_app. reflexivity.
Qed.

(** In a valid state no handler warns about the input. *)
Lemma valid_no_popup (ev : event) (s : state) :
  valid_text s = true ->
  invalid_input_popups (log_of (dispatch ev s)) = 0%nat.
Proof.
  intros H. apply valid_text_true in H. destruct H as [m Hm].
  handler_cases ev s; try congruence; try reflexivity;
    cbn [log_of snd]; split_tests; reflexivity.
Qed.

(** In an invalid state a handler spends the budget or leaves it. *)
Lemma invalid_spends_budget (ev : event) (s : state) :
  valid_text s = false ->
  (invalid_input_popups (log_of (dispatch ev s))
   + budget (state_of (dispatch ev s)) <= budget s)%nat.
Proof.
  intros H. apply valid_text_false in H.
  handler_cases ev s; try congruence; unfold budget; cbn;
    destruct (ERROR_SHOWN s) eqn:F; cbn; rewrite ?F; lia.
Qed.

Lemma removelast_trajectory (s : state) (ev ev2 : event) (rest : list event) :
  removelast (trajectory s (ev :: ev2 :: rest)) =
  state_of (dispatch ev s)
  :: removelast (trajectory (state_of (dispatch ev s)) (ev2 :: rest)).
Proof. reflexivity. Qed.

Lemma invalid_run_budget (evs : list event) :
  forall s,
    valid_text s = false ->
    forallb (fun s1 => negb (valid_text s1)) (removelast (trajectory s evs))
      = true ->
    (invalid_input_popups (log_of (run evs s)) <= budget s)%nat.
Proof.
  induction evs as [|ev rest IH]; intros s Hs Hall; [cbn; lia|].
  rewrite run_cons. cbn [log_of snd]. rewrite invalid_input_popups_app.
  pose proof (invalid_spends_budget ev s Hs) as Hstep.
  destruct rest as [|ev2 rest].
  - change (invalid_input_popups (log_of (run [] (state_of (dispatch ev s)))))
      with 0%nat. lia.
  - rewrite removelast_trajectory in Hall. cbn [forallb] in Hall.
    apply andb_true_iff in Hall. destruct Hall as [H1 Hall].
    apply negb_true_iff in H1.
    specialize (IH _ H1 Hall). unfold log_of in *. lia.
Qed.

(** ** At the limit of the digits *)

Lemma digits_tenfold (p : positive) :
  digits (Z.pos (10 * p)) = S (digits (Z.pos p)).
Proof.
  unfold digits, Pos.to_uint. rewrite !DecimalFacts.nb_digits_rev.
  pose proof (DecimalPos.Unsigned.to_ldec_tenfold p) as H.
  cbn [DecimalPos.Unsigned.to_lu N.mul] in H. rewrite H. reflexivity.
Qed.

Lemma digits_power_of_ten (count : nat) :
  digits (10 ^ Z.of_nat count) = S count.
Proof.
  induction count as [|count IH]; [reflexivity|].
  rewrite Nat2Z.inj_succ, Z.pow_succ_r by lia.
  assert (Hpos : 0 < 10 ^ Z.of_nat count) by (apply Z.pow_pos_nonneg; lia).
  destruct (10 ^ Z.of_nat count) as [|p|p]; try lia.
  change (10 * Z.pos p) with (Z.pos (10 * p)).
  rewrite digits_tenfold, IH. reflexivity.
Qed.

Lemma scan_nines (count : nat) :
  forall acc : Z,
    Py.scan_digits false acc (repeat "9"%char count) =
    Some (acc * 10 ^ Z.of_nat count + (10 ^ Z.of_nat count - 1), []).
Proof.
  induction count as [|count IH]; intros acc.
  - cbn [repeat Py.scan_digits]. f_equal. f_equal.
    change (10 ^ Z.of_nat 0) with 1. lia.
  - cbn [repeat]. rewrite scan_digit_step by reflexivity.
    change (Py.digit_value "9") with 9. rewrite IH.
    rewrite Nat2Z.inj_succ, Z.pow_succ_r by lia. f_equal. f_equal. ring.
Qed.

Lemma count_nines (count : nat) :
  Py.count_digits (repeat "9"%char count) = count.
Proof.
  induction count as [|count IH]; [reflexivity|].
  cbn [repeat Py.count_digits]. change (Py.is_digit "9") with true.
  cbv iota. rewrite IH. reflexivity.
Qed.

(** As many nines as the limit allows are a valid text, and one more is
    not. *)
Lemma int_nines (count : nat) :
  Py.int (nines (S count)) =
    if (Py.max_str_digits <? S count)%nat then None
    else Some (all_nines (S count)).
Proof.
  unfold Py.int, nines. rewrite map_repeat.
  change (Py.to_ascii 57) with "9"%char.
  change (repeat "9"%char (S count)) with ("9"%char :: repeat "9"%char count).
  rewrite int_of_chars_digit by reflexivity. unfold Py.magnitude.
  change (Py.is_digit "9") with true. cbv iota.
  change ("9"%char :: repeat "9"%char count) with (repeat "9"%char (S count)).
  rewrite count_nines, scan_nines.
  destruct (Py.max_str_digits <? S count)%nat; [reflexivity|].
  cbn [Py.skip_space]. unfold all_nines. f_equal; lia.
Qed.

Lemma str_after_nines (count : nat) :
  Py.str (all_nines count + 1) =
    if (Py.max_str_digits <? S count)%nat then None
    else Some (numeral (10 ^ Z.of_nat count)).
Proof.
  unfold Py.str, all_nines.
  replace (10 ^ Z.of_nat count - 1 + 1) with (10 ^ Z.of_nat count) by lia.
  rewrite digits_power_of_ten. reflexivity.
Qed.
(** * The properties of the specification *)

(** C1.  [on_go_to] reaches the server exactly when the text passes the
    validation.  With valid text the push is attempted: [tg.root()] is
    called and, once it has answered, [set_param("current_frame", n)] with
    the parsed integer [n]; with invalid text no remote call is made.  Every
    value handed to [set_param] is the parse of the validated text. *)
Theorem commit_pushes_iff_valid (tg : terragen) (s : state) :
  (existsb is_rpc (log_of (on_go_to tg s)) = true <-> valid_text s = true)
  /\ (forall n,
        Py.int (current_frame_var s) = Some n ->
        filter is_rpc (log_of (on_go_to tg s)) =
          match root tg with
          | None => [RpcRoot; RpcSetParam "current_frame" n]
          | Some _ => [RpcRoot]
          end)
  /\ (valid_text s = false -> filter is_rpc (log_of (on_go_to tg s)) = [])
  /\ (forall name v,
        In (RpcSetParam name v) (log_of (on_go_to tg s)) ->
        name = "current_frame" /\ Py.int (current_frame_var s) = Some v).
Proof.
  unfold valid_text.
  destruct (Py.int (current_frame_var s)) as [n|] eqn:E.
  - rewrite (on_go_to_valid tg s n E). cbn [log_of snd].
    destruct (root tg) as [e|];
      [|destruct (set_param tg "current_frame" n) as [e|]];
      (split; [split; reflexivity|]);
      (split; [intros m Hm; injection Hm as <-; reflexivity|]);
      (split; [discriminate|]);
      intros name v Hin; cbn in Hin;
      repeat (destruct Hin as [Hin|Hin]; try discriminate Hin);
      try contradiction;
      injection Hin as <- <-; split; reflexivity.
  - rewrite (on_go_to_invalid tg s E). cbn [log_of snd].
    destruct (ERROR_SHOWN s);
      (split; [split; discriminate|]);
      (split; [discriminate|]);
      (split; [reflexivity|]);
      intros name v Hin; cbn in Hin;
      repeat (destruct Hin as [Hin|Hin]; try discriminate Hin);
      contradiction.
Qed.

Lemma commit_pushes_iff_valid_witness :
  filter is_rpc
    (log_of (on_go_to (server_at 24) (mkState "24" "30" "1" "100" false))) =
  [RpcRoot; RpcSetParam "current_frame" 30].
Proof.
  apply (commit_pushes_iff_valid (server_at 24)
           (mkState "24" "30" "1" "100" false)).
  reflexivity.
Defined.

(** C2.  In a run of events whose intermediate states all hold invalid
    text (the states before the first and after the last event may be
    valid), the "Invalid input" warning pops up at most once.  A validation
    raises it exactly when the text is invalid and [ERROR_SHOWN] is false,
    and every validation of invalid text leaves [ERROR_SHOWN] true. *)
Theorem one_warning_per_invalid_run (s : state) (evs : list event)
  (Hinvalid :
     forallb (fun s1 => negb (valid_text s1)) (removelast (trajectory s evs))
       = true) :
  (invalid_input_popups (log_of (run evs s)) <= 1)%nat
  /\ (forall value s0,
        log_of (is_valid_integer value s0) =
          match Py.int value with
          | Some _ => []
          | None => if ERROR_SHOWN s0 then [] else [invalid_input_popup]
          end)
  /\ (forall value s0,
        Py.int value = None ->
        ERROR_SHOWN (state_of (is_valid_integer value s0)) = true).
Proof.
  split; [|split].
  - destruct evs as [|ev rest]; [cbn; lia|].
    rewrite run_cons. cbn [log_of snd]. rewrite invalid_input_popups_app.
    destruct (valid_text s) eqn:Hs.
    + rewrite (valid_no_popup ev s Hs).
      destruct rest as [|ev2 rest]; [cbn; lia|].
      rewrite removelast_trajectory in Hinvalid. cbn [forallb] in Hinvalid.
      apply andb_true_iff in Hinvalid. destruct Hinvalid as [H1 Hall].
      apply negb_true_iff in H1.
      pose proof (invalid_run_budget _ _ H1 Hall) as Hb.
      unfold budget, log_of in *.
      destruct (ERROR_SHOWN (state_of (dispatch ev s))); lia.
    + pose proof (invalid_run_budget (ev :: rest) s Hs Hinvalid) as Hb.
      rewrite run_cons in Hb. cbn [log_of snd] in Hb.
      rewrite invalid_input_popups_app in Hb.
      unfold budget in Hb. destruct (ERROR_SHOWN s); lia.
  - intros value s0. destruct (Py.int value) as [n|] eqn:E.
    + rewrite (is_valid_integer_valid _ _ _ E). reflexivity.
    + rewrite (is_valid_integer_invalid _ _ E). reflexivity.
  - intros value s0 E. rewrite (is_valid_integer_invalid _ _ E). cbn.
    destruct (ERROR_SHOWN s0) eqn:F; [exact F | reflexivity].
Qed.

Lemma one_warning_per_invalid_run_witness :
  (invalid_input_popups
     (log_of
        (run [UserEdit "2x"; KeyRelease (server_at 24); Up;
              UserEdit ""; KeyRelease (server_at 24); MouseWheel 120;
              Escape; Down; UserEdit "30"]
           (mkState "" "24" "1" "100" false))) <= 1)%nat.
Proof.
  apply (one_warning_per_invalid_run
           (mkState "" "24" "1" "100" false)
           [UserEdit "2x"; KeyRelease (server_at 24); Up;
            UserEdit ""; KeyRelease (server_at 24); MouseWheel 120;
            Escape; Down; UserEdit "30"]).
  reflexivity.
Defined.

(** C3, as claimed, fails: after a warning, Escape puts the valid snapshot
    back into the field; Up, Down and the wheel then run on valid text and
    leave [ERROR_SHOWN] set. *)
Lemma steps_keep_flag_counterexample :
  let s :=
    state_of
      (run [UserEdit "abc"; KeyRelease (server_at 24); Escape]
         (state_of (startup (server_at 24)))) in
  s = mkState "24" "24" "1" "100" true
  /\ valid_text s = true
  /\ ERROR_SHOWN (state_of (increase_value s)) = true
  /\ ERROR_SHOWN (state_of (decrease_value s)) = true
  /\ ERROR_SHOWN (state_of (on_mouse_wheel 120 s)) = true.
Proof. repeat split; reflexivity. Qed.

(** C3, amended.  With valid text, [on_go_to] leaves [ERROR_SHOWN] false
    whatever the server answers; [increase_value], [decrease_value] and
    [on_mouse_wheel] leave the flag as it was. *)
Theorem flag_reset_by_commit (s : state) (Hvalid : valid_text s = true) :
  (forall tg, ERROR_SHOWN (state_of (on_go_to tg s)) = false)
  /\ ERROR_SHOWN (state_of (increase_value s)) = ERROR_SHOWN s
  /\ ERROR_SHOWN (state_of (decrease_value s)) = ERROR_SHOWN s
  /\ (forall delta,
        ERROR_SHOWN (state_of (on_mouse_wheel delta s)) = ERROR_SHOWN s).
Proof.
  apply valid_text_true in Hvalid. destruct Hvalid as [n E].
  repeat split.
  - intros tg. rewrite (on_go_to_valid tg s n E). reflexivity.
  - rewrite (increase_value_valid s n E). reflexivity.
  - rewrite (decrease_value_valid s n E). reflexivity.
  - intros delta. rewrite (on_mouse_wheel_valid delta s n E).
    unfold wheel_write. split_tests; reflexivity.
Qed.

Lemma flag_reset_by_commit_witness :
  ERROR_SHOWN
    (state_of
       (on_go_to (server_down (TimeoutError "timed out"))
          (mkState "24" "30" "1" "100" true))) = false.
Proof.
  apply (flag_reset_by_commit (mkState "24" "30" "1" "100" true)).
  reflexivity.
Defined.

(** C4.  With valid text [n], Up writes the numeral of [n + 1] and Down
    that of [n - 1]; the wheel writes the numeral of [n + 1] for a positive
    and of [n - 1] for a negative delta when [str] returns it, that is when
    it has no more than [Py.max_str_digits] digits.  With invalid text the
    three handlers leave the field alone, and none of them makes a remote
    call.  At the limit the wheel fails where Up does not: on a field of
    4300 nines Up writes the numeral of the next integer, while the wheel,
    which goes through [str] (line 133), raises [ValueError] and leaves the
    nines. *)
Theorem steps_are_local (s : state) (delta : Z) :
  (forall n,
      Py.int (current_frame_var s) = Some n ->
      current_frame_var (state_of (increase_value s)) = numeral (n + 1)
      /\ current_frame_var (state_of (decrease_value s)) = numeral (n - 1)
      /\ (0 < delta -> fits (n + 1) = true ->
          current_frame_var (state_of (on_mouse_wheel delta s))
          = numeral (n + 1)
          /\ Py.int (numeral (n + 1)) = Some (n + 1))
      /\ (delta < 0 -> fits (n - 1) = true ->
          current_frame_var (state_of (on_mouse_wheel delta s))
          = numeral (n - 1)
          /\ Py.int (numeral (n - 1)) = Some (n - 1)))
  /\ (Py.int (current_frame_var s) = None ->
      current_frame_var (state_of (increase_value s)) = current_frame_var s
      /\ current_frame_var (state_of (decrease_value s)) = current_frame_var s
      /\ current_frame_var (state_of (on_mouse_wheel delta s))
         = current_frame_var s)
  /\ filter is_rpc (log_of (increase_value s)) = []
  /\ filter is_rpc (log_of (decrease_value s)) = []
  /\ filter is_rpc (log_of (on_mouse_wheel delta s)) = []
  /\ (let s9 := mkState "24" (nines Py.max_str_digits) "1" "100" false in
      Py.int (current_frame_var s9) = Some (all_nines Py.max_str_digits)
      /\ current_frame_var (state_of (increase_value s9))
         = numeral (all_nines Py.max_str_digits + 1)
      /\ on_mouse_wheel 120 s9 = (Raised ValueError, s9, [])).
Proof.
  assert (Hnines :
    Py.int (nines Py.max_str_digits) = Some (all_nines Py.max_str_digits)).
  { pose proof (int_nines 4299) as H.
    change (S 4299) with Py.max_str_digits in H.
    rewrite Nat.ltb_irrefl in H. exact H. }
  assert (Hlocal :
    filter is_rpc (log_of (increase_value s)) = []
    /\ filter is_rpc (log_of (decrease_value s)) = []
    /\ filter is_rpc (log_of (on_mouse_wheel delta s)) = []).
  { destruct (Py.int (current_frame_var s)) as [m|] eqn:E.
    - rewrite (increase_value_valid s m E), (decrease_value_valid s m E),
        (on_mouse_wheel_valid delta s m E).
      unfold wheel_write. cbn [log_of snd]. split_tests; repeat split.
    - rewrite (proj2 (step_invalid s E)), (proj1 (step_invalid s E)),
        (on_mouse_wheel_invalid delta s E).
      cbn [log_of snd]. destruct (ERROR_SHOWN s); repeat split. }
  split; [|split; [|split; [|split; [|split]]]]; try apply Hlocal.
  - intros n E.
    rewrite (increase_value_valid s n E), (decrease_value_valid s n E),
      (on_mouse_wheel_valid delta s n E).
    cbn [state_of fst snd current_frame_var set_current_frame_var].
    split; [reflexivity|]. split; [reflexivity|]. split.
    + intros Hd Hfit. apply Z.ltb_lt in Hd. rewrite Hd.
      unfold wheel_write. rewrite str_fits, Hfit.
      split; [reflexivity | apply fits_int_numeral; exact Hfit].
    + intros Hd Hfit.
      assert (H0 : (0 <? delta)%Z = false) by (apply Z.ltb_ge; lia).
      apply Z.ltb_lt in Hd. rewrite H0, Hd.
      unfold wheel_write. rewrite str_fits, Hfit.
      split; [reflexivity | apply fits_int_numeral; exact Hfit].
  - intros E.
    rewrite (proj2 (step_invalid s E)), (proj1 (step_invalid s E)),
      (on_mouse_wheel_invalid delta s E).
    cbn [state_of fst snd]. destruct (ERROR_SHOWN s); repeat split.
  - cbv zeta.
    set (s9 := mkState "24" (nines Py.max_str_digits) "1" "100" false).
    assert (E9 : Py.int (current_frame_var s9)
                 = Some (all_nines Py.max_str_digits)) by exact Hnines.
    split; [exact E9|]. split.
    + rewrite (increase_value_valid s9 _ E9). reflexivity.
    + rewrite (on_mouse_wheel_valid 120 s9 _ E9).
      change (0 <? 120)%Z with true. cbv iota. unfold wheel_write.
      rewrite str_after_nines.
      assert (Hover : (Py.max_str_digits <? S Py.max_str_digits)%nat = true)
        by (apply Nat.ltb_lt; lia).
      rewrite Hover. reflexivity.
Qed.

(** C5.  [on_escape] makes the field equal to the startup snapshot,
    whatever the field holds, valid or not; it leaves the snapshot, the
    bounds and the flag as they were, validates nothing and makes no call:
    its log is empty.  No event changes the snapshot, so after any run that
    follows the startup Escape leaves in the field the snapshot the startup
    left. *)
Theorem revert_restores_snapshot (tg : terragen) (evs : list event)
  (s : state) :
  current_frame_var (state_of (on_escape s)) = current_frame_at_startup s
  /\ current_frame_at_startup (state_of (on_escape s))
     = current_frame_at_startup s
  /\ start_frame_var (state_of (on_escape s)) = start_frame_var s
  /\ end_frame_var (state_of (on_escape s)) = end_frame_var s
  /\ ERROR_SHOWN (state_of (on_escape s)) = ERROR_SHOWN s
  /\ result_of (on_escape s) = Returned tt
  /\ log_of (on_escape s) = []
  /\ current_frame_at_startup (state_of (run evs s))
     = current_frame_at_startup s
  /\ current_frame_var
       (state_of (run (evs ++ [Escape]) (state_of (startup tg))))
     = current_frame_at_startup (state_of (startup tg))
  /\ log_of (run (evs ++ [Escape]) (state_of (startup tg)))
     = log_of (run evs (state_of (startup tg))).
Proof.
  repeat (split; [reflexivity|]).
  split; [apply run_snapshot_preserved|].
  assert (Hrun : forall s0,
    run (evs ++ [Escape]) s0 =
      (Returned tt,
       set_current_frame_var (current_frame_at_startup s0)
         (state_of (run evs s0)),
       log_of (run evs s0))).
  { induction evs as [|ev rest IH]; intros s0; [reflexivity|].
    cbn [app]. rewrite !run_cons, IH.
    cbn [result_of state_of log_of fst snd].
    rewrite snapshot_preserved. reflexivity. }
  rewrite Hrun. split; reflexivity.
Qed.

(** C6, as claimed, fails: when [current_frame] has been fetched and the
    fetch of [start_frame] times out, one warning is shown but the field
    holds the fetched frame, not "1". *)
Lemma startup_partial_counterexample :
  startup (server_failing_after_current 24 (TimeoutError "timed out")) =
    (Returned tt, mkState "24" "24" "" "" false,
     [RpcRoot; RpcGetParam "current_frame"; RpcGetParam "start_frame";
      Popup "tg_go_to_frame.py" "Terragen RPC timeout errortimed out"])
  /\ current_frame_var
       (state_of
          (startup
             (server_failing_after_current 24 (TimeoutError "timed out"))))
     <> "1".
Proof. split; [reflexivity | discriminate]. Qed.

(** C6, amended.  When a call of the startup fails, exactly one warning is
    shown and it names the kind of the failure.  The field keeps its default
    "1" when [tg.root()] or the fetch of [current_frame] is what failed; when
    [current_frame] was fetched and a later fetch failed, the field and the
    snapshot hold the fetched frame. *)
Theorem startup_failure_warns_once (tg : terragen) (e : rpc_error)
  (Hfail : first_startup_failure tg = Some e) :
  filter is_popup (log_of (startup tg)) =
    [Popup script_name ("Terragen RPC " ++ kind_name e ++ detail_of e)]
  /\ match root tg, get_param tg "current_frame" with
     | None, inr current =>
         current_frame_var (state_of (startup tg)) = numeral current
         /\ current_frame_at_startup (state_of (startup tg)) = numeral current
     | _, _ =>
         current_frame_var (state_of (startup tg)) = "1"
         /\ current_frame_at_startup (state_of (startup tg)) = ""
     end.
Proof.
  unfold first_startup_failure in Hfail. unfold startup.
  rewrite on_startup_eq.
  destruct (root tg) as [e0|].
  { injection Hfail as <-. split; [reflexivity | split; reflexivity]. }
  destruct (get_param tg "current_frame") as [e0|current].
  { injection Hfail as <-. split; [reflexivity | split; reflexivity]. }
  cbv zeta.
  destruct (get_param tg "start_frame") as [e0|first].
  { injection Hfail as <-. split; [reflexivity | split; reflexivity]. }
  destruct (get_param tg "end_frame") as [e0|last].
  { injection Hfail as <-. split; [reflexivity | split; reflexivity]. }
  discriminate.
Qed.

Lemma startup_failure_warns_once_witness :
  filter is_popup
    (log_of (startup (server_down (TimeoutError "timed out")))) =
  [Popup "tg_go_to_frame.py" "Terragen RPC timeout errortimed out"]
  /\ current_frame_var
       (state_of (startup (server_down (TimeoutError "timed out")))) = "1".
Proof.
  destruct (startup_failure_warns_once
              (server_down (TimeoutError "timed out"))
              (TimeoutError "timed out") eq_refl) as [Hlog [Hfield _]].
  split; [exact Hlog | exact Hfield].
Defined.

(** C7.  The snapshot is written once, by a startup whose fetch of
    [current_frame] succeeded, it then reads back as the fetched integer
    (one that [int] converts), and no event changes it.  A startup that could not fetch
    [current_frame] leaves it empty: Escape then writes the empty text, which
    is no integer, into the field and the next key release warns about
    it. *)
Theorem snapshot_empty_after_failed_startup :
  (forall ev s,
      current_frame_at_startup (state_of (dispatch ev s))
      = current_frame_at_startup s)
  /\ (forall tg,
        current_frame_at_startup (state_of (startup tg)) =
          match root tg, get_param tg "current_frame" with
          | None, inr current => numeral current
          | _, _ => ""
          end)
  /\ (forall current,
        fits current = true -> Py.int (numeral current) = Some current)
  /\ (let s0 := state_of (startup (server_down (TimeoutError "timed out"))) in
      current_frame_at_startup s0 = ""
      /\ Py.int (current_frame_at_startup s0) = None
      /\ run [Escape; KeyRelease (server_at 24)] s0 =
           (Returned tt, mkState "" "" "" "" true, [invalid_input_popup])).
Proof.
  split; [exact snapshot_preserved|].
  split; [|split; [exact fits_int_numeral|]].
  - intros tg. unfold startup. rewrite on_startup_eq.
    destruct (root tg) as [e|]; [reflexivity|].
    destruct (get_param tg "current_frame") as [e|current]; [reflexivity|].
    cbv zeta. destruct (get_param tg "start_frame") as [e|first];
      [reflexivity|].
    destruct (get_param tg "end_frame") as [e|last]; reflexivity.
  - repeat split; reflexivity.
Qed.

(** C8.  When the push of a valid text fails, at [tg.root()] or at
    [set_param], one warning is shown, titled with the script's name and
    made of the kind of the failure followed by its detail (the traceback
    for an API error); [set_param] is called at most once and [tg.root()]
    once; the field keeps its text, and the state is the one a successful
    push leaves. *)
Theorem failed_push_keeps_text (tg : terragen) (s : state) (n : Z)
  (e : rpc_error)
  (Hvalid : Py.int (current_frame_var s) = Some n)
  (Hfail :
     root tg = Some e
     \/ (root tg = None /\ set_param tg "current_frame" n = Some e)) :
  filter is_popup (log_of (on_go_to tg s)) =
    [Popup script_name ("Terragen RPC " ++ kind_name e ++ detail_of e)]
  /\ (List.length (filter is_set_param (log_of (on_go_to tg s))) <= 1)%nat
  /\ List.length
       (filter (fun x => match x with RpcRoot => true | _ => false end)
          (log_of (on_go_to tg s))) = 1%nat
  /\ current_frame_var (state_of (on_go_to tg s)) = current_frame_var s
  /\ (forall tg_ok, state_of (on_go_to tg s) = state_of (on_go_to tg_ok s)).
Proof.
  rewrite (on_go_to_valid tg s n Hvalid). cbn [log_of state_of fst snd].
  assert (Hstate : forall tg_ok,
             set_ERROR_SHOWN false s = snd (fst (on_go_to tg_ok s))).
  { intros tg_ok. rewrite (on_go_to_valid tg_ok s n Hvalid). reflexivity. }
  destruct Hfail as [Hr | [Hr Hs]]; rewrite Hr; [|rewrite Hs];
    repeat split; cbn; try lia; exact Hstate.
Qed.

Lemma failed_push_keeps_text_witness :
  filter is_popup
    (log_of
       (on_go_to (server_failing_after_current 24 (ApiError "Traceback"))
          (mkState "24" "30" "1" "100" false))) =
  [Popup "tg_go_to_frame.py" "Terragen RPC API errorTraceback"]
  /\ current_frame_var
       (state_of
          (on_go_to (server_failing_after_current 24 (ApiError "Traceback"))
             (mkState "24" "30" "1" "100" false))) = "30".
Proof.
  destruct (failed_push_keeps_text
              (server_failing_after_current 24 (ApiError "Traceback"))
              (mkState "24" "30" "1" "100" false) 30 (ApiError "Traceback")
              eq_refl (or_intror (conj eq_refl eq_refl)))
    as [Hlog [_ [_ [Hfield _]]]].
  split; [exact Hlog | exact Hfield].
Defined.

(** C9, as claimed, fails: [int] also takes white space around the number
    and underscores between digits, so the validation accepts texts that
    are not a sign followed by digits; and it takes no more than 4300
    digits, so it rejects a text of 4301 ones, which is one. *)
Lemma padded_text_counterexample :
  is_signed_decimal " 7" = false
  /\ result_of (is_valid_integer " 7" initial_state) = Returned true
  /\ is_signed_decimal "1_000" = false
  /\ result_of (is_valid_integer "1_000" initial_state) = Returned true
  /\ is_signed_decimal (repeat 49%N 4301) = true
  /\ result_of (is_valid_integer (repeat 49%N 4301) initial_state)
     = Returned false.
Proof. repeat split; vm_compute; reflexivity. Qed.

(** C9, amended.  [is_valid_integer] returns true exactly for the texts
    made of optional white space, an optional sign, decimal digits in groups
    separated by single underscores, at most [Py.max_str_digits] digits in
    all, and optional white space; it returns false for every other text
    and never raises.  Every text that is an optional sign followed by at
    most [Py.max_str_digits] decimal digits is among the accepted ones. *)
Theorem valid_iff_int_literal (text : unicode) (s : state) :
  (result_of (is_valid_integer text s) = Returned true <-> int_literal text)
  /\ (~ int_literal text ->
      result_of (is_valid_integer text s) = Returned false)
  /\ (is_signed_decimal text = true ->
      (List.length (drop_sign text) <= Py.max_str_digits)%nat ->
      result_of (is_valid_integer text s) = Returned true).
Proof.
  pose proof (int_literal_iff text) as Hiff.
  assert (Hcases :
    (int_literal text /\
     result_of (is_valid_integer text s) = Returned true)
    \/ (~ int_literal text /\
        result_of (is_valid_integer text s) = Returned false)).
  { destruct (Py.int text) as [n|] eqn:E.
    - left. split; [apply Hiff; eexists; reflexivity|].
      rewrite (is_valid_integer_valid text n s E). reflexivity.
    - right. split.
      + intros Hl. apply Hiff in Hl. destruct Hl as [n Hn]. discriminate.
      + rewrite (is_valid_integer_invalid text s E). reflexivity. }
  split; [|split].
  - destruct Hcases as [[Hl Hr] | [Hl Hr]]; rewrite Hr; split;
      try tauto; discriminate.
  - destruct Hcases as [[Hl Hr] | [Hl Hr]]; tauto.
  - intros Hd Hcap. pose proof (signed_decimal_literal text Hd Hcap).
    destruct Hcases as [[Hl Hr] | [Hl Hr]]; tauto.
Qed.

Lemma valid_iff_int_literal_witness :
  result_of (is_valid_integer "-12" initial_state) = Returned true.
Proof.
  apply (valid_iff_int_literal "-12" initial_state);
    [reflexivity | vm_compute; lia].
Defined.

(** C10.  With valid text [on_go_to] leaves [ERROR_SHOWN] false whatever
    [tg.root()] and [set_param] answer, failures included.  If the text then
    becomes invalid, the next handler that validates it shows the
    warning. *)
Theorem commit_clears_flag_before_push (tg : terragen) (s : state)
  (Hvalid : valid_text s = true) :
  ERROR_SHOWN (state_of (on_go_to tg s)) = false
  /\ (forall text ev,
        Py.int text = None ->
        match ev with UserEdit _ | Escape => False | _ => True end ->
        invalid_input_popups
          (log_of (run [UserEdit text; ev] (state_of (on_go_to tg s))))
        = 1%nat).
Proof.
  apply valid_text_true in Hvalid. destruct Hvalid as [n E].
  rewrite (on_go_to_valid tg s n E). cbn [state_of fst snd].
  split; [reflexivity|].
  intros text ev Htext Hev. rewrite !run_cons.
  cbn [dispatch log_of snd write state_of fst app run ret].
  rewrite app_nil_r.
  set (s1 := set_current_frame_var text (set_ERROR_SHOWN false s)).
  assert (E1 : Py.int (current_frame_var s1) = None) by exact Htext.
  destruct ev as [? | tg1 | | | delta | ]; try contradiction; cbn [dispatch].
  - rewrite (on_go_to_invalid tg1 s1 E1). reflexivity.
  - rewrite (proj1 (step_invalid s1 E1)). reflexivity.
  - rewrite (proj2 (step_invalid s1 E1)), (proj1 (step_invalid s1 E1)).
    reflexivity.
  - rewrite (on_mouse_wheel_invalid delta s1 E1). reflexivity.
Qed.

Lemma commit_clears_flag_before_push_witness :
  ERROR_SHOWN
    (state_of
       (on_go_to (server_down (ConnectionError "refused"))
          (mkState "24" "30" "1" "100" true))) = false
  /\ invalid_input_popups
       (log_of
          (run [UserEdit "3o"; KeyRelease (server_at 24)]
             (state_of
                (on_go_to (server_down (ConnectionError "refused"))
                   (mkState "24" "30" "1" "100" true))))) = 1%nat.
Proof.
  destruct (commit_clears_flag_before_push
              (server_down (ConnectionError "refused"))
              (mkState "24" "30" "1" "100" true) eq_refl) as [Hflag Hnext].
  split; [exact Hflag|].
  apply (Hnext "3o" (KeyRelease (server_at 24))); [reflexivity | exact I].
Defined.

(** * Further properties of the script *)

Lemma run_app (a b : list event) (s : state) :
  run (a ++ b) s =
    (Returned tt,
     state_of (run b (state_of (run a s))),
     (log_of (run a s) ++ log_of (run b (state_of (run a s))))%list).
Proof.
  revert s. induction a as [|ev rest IH]; intros s.
  - cbn [app]. change (state_of (run [] s)) with s.
    change (log_of (run [] s)) with (@nil effect). cbn [app].
    assert (Hr : forall evs s0, result_of (run evs s0) = Returned tt).
    { intros evs. induction evs as [|ev0 r0 IHr]; intros s0; [reflexivity|].
      rewrite run_cons. cbn [result_of fst]. apply IHr. }
    specialize (Hr b s). destruct (run b s) as [[r s1] log1].
    cbn in Hr. subst r. reflexivity.
  - cbn [app]. rewrite !run_cons, IH.
    cbn [result_of state_of log_of fst snd]. rewrite app_assoc. reflexivity.
Qed.



(** X2.  Committing twice is committing once as far as the script's
    variables go: a second [on_go_to] leaves the state the first one left,
    whatever the two servers answer.  Against the same server it repeats the
    same remote calls, and it never shows the "Invalid input" warning. *)
Theorem commit_idempotent (tg1 tg2 : terragen) (s : state) :
  state_of (on_go_to tg2 (state_of (on_go_to tg1 s)))
  = state_of (on_go_to tg1 s)
  /\ filter is_rpc (log_of (on_go_to tg1 (state_of (on_go_to tg1 s))))
     = filter is_rpc (log_of (on_go_to tg1 s))
  /\ invalid_input_popups
       (log_of (on_go_to tg2 (state_of (on_go_to tg1 s)))) = 0%nat.
Proof.
  destruct (Py.int (current_frame_var s)) as [n|] eqn:E.
  - rewrite (on_go_to_valid tg1 s n E). cbn [state_of log_of fst snd].
    assert (E1 : Py.int (current_frame_var (set_ERROR_SHOWN false s)) = Some n)
      by exact E.
    rewrite (on_go_to_valid tg2 _ n E1), (on_go_to_valid tg1 _ n E1).
    cbn [state_of log_of fst snd]. repeat split.
    destruct (root tg2); [reflexivity|].
    destruct (set_param tg2 "current_frame" n); reflexivity.
  - rewrite (on_go_to_invalid tg1 s E). cbn [state_of log_of fst snd].
    destruct (ERROR_SHOWN s) eqn:F.
    + rewrite (on_go_to_invalid tg2 s E), (on_go_to_invalid tg1 s E), F.
      repeat split.
    + assert (E1 : Py.int (current_frame_var (set_ERROR_SHOWN true s)) = None)
        by exact E.
      rewrite (on_go_to_invalid tg2 _ E1), (on_go_to_invalid tg1 _ E1).
      repeat split.
Qed.

Lemma dispatch_keeps_bounds (ev : event) (s : state) :
  start_frame_var (state_of (dispatch ev s)) = start_frame_var s
  /\ end_frame_var (state_of (dispatch ev s)) = end_frame_var s.
Proof.
  handler_cases ev s; cbn; split_tests; split; reflexivity.
Qed.

Lemma dispatch_calls (ev : event) (s : state) :
  filter is_get_param (log_of (dispatch ev s)) = []
  /\ (forall name v,
        In (RpcSetParam name v) (log_of (dispatch ev s)) ->
        name = "current_frame").
Proof.
  handler_cases ev s; cbn [log_of snd]; split_tests;
    (split; [reflexivity|]); intros name v Hin; cbn in Hin;
    repeat (destruct Hin as [Hin|Hin]; try discriminate Hin);
    try contradiction; injection Hin as <- _; reflexivity.
Qed.

(** X3.  The frame bounds are read-only once the startup is over: no run
    of events changes [start_frame_var] or [end_frame_var], no handler
    fetches a parameter, and the only parameter ever written to the server
    is [current_frame]. *)
Theorem bounds_are_read_only (evs : list event) (s : state) :
  start_frame_var (state_of (run evs s)) = start_frame_var s
  /\ end_frame_var (state_of (run evs s)) = end_frame_var s
  /\ filter is_get_param (log_of (run evs s)) = []
  /\ (forall name v,
        In (RpcSetParam name v) (log_of (run evs s)) ->
        name = "current_frame").
Proof.
  revert s. induction evs as [|ev rest IH]; intros s.
  - repeat split. intros name v Hin. contradiction.
  - rewrite run_cons. cbn [state_of log_of fst snd].
    destruct (IH (state_of (dispatch ev s))) as [Hs [He [Hg Hp]]].
    destruct (dispatch_keeps_bounds ev s) as [Hs1 He1].
    destruct (dispatch_calls ev s) as [Hg1 Hp1].
    unfold state_of, log_of in *.
    split; [congruence|]. split; [congruence|]. split.
    + rewrite filter_app, Hg, Hg1. reflexivity.
    + intros name v Hin. apply in_app_or in Hin.
      destruct Hin as [Hin|Hin]; [apply (Hp1 name v Hin) | apply (Hp name v Hin)].
Qed.

(** X4.  A startup whose four calls succeed fills the four variables with
    the decimal numerals of the fetched values, the field and the snapshot
    with the same one, and shows nothing; Escape then changes nothing.  The
    field validates and reads back as the fetched frame, provided the frame
    is one that [int] converts (no more than [Py.max_str_digits] digits). *)
Theorem startup_success (tg : terragen) (current first last : Z)
  (Hroot : root tg = None)
  (Hcurrent : get_param tg "current_frame" = inr current)
  (Hfirst : get_param tg "start_frame" = inr first)
  (Hlast : get_param tg "end_frame" = inr last) :
  startup tg =
    (Returned tt,
     mkState (numeral current) (numeral current) (numeral first)
       (numeral last) false,
     [RpcRoot; RpcGetParam "current_frame"; RpcGetParam "start_frame";
      RpcGetParam "end_frame"])
  /\ (fits current = true ->
      Py.int (current_frame_var (state_of (startup tg))) = Some current
      /\ valid_text (state_of (startup tg)) = true)
  /\ state_of (on_escape (state_of (startup tg))) = state_of (startup tg).
Proof.
  unfold startup. rewrite on_startup_eq, Hroot, Hcurrent, Hfirst, Hlast.
  cbv zeta. split; [reflexivity|].
  cbn [state_of fst snd]. unfold valid_text.
  cbn [current_frame_var set_end_frame_var set_start_frame_var
       set_current_frame_var set_current_frame_at_startup initial_state].
  split; [|reflexivity].
  intros Hfits. rewrite (fits_int_numeral current Hfits). split; reflexivity.
Qed.

Lemma startup_success_witness :
  Py.int (current_frame_var (state_of (startup (server_at 24)))) = Some 24.
Proof.
  destruct (startup_success (server_at 24) 24 1 100 eq_refl eq_refl eq_refl
              eq_refl) as [_ [Hvalid _]].
  apply Hvalid. reflexivity.
Defined.

(** X5.  The startup only reads and stops at the first failure: its calls
    are [root], [current_frame], [start_frame], [end_frame] in that order up
    to and including the first that fails, nothing is called after a
    failure, and the warning for that failure is the last thing it does; it
    never calls [set_param], and it leaves [ERROR_SHOWN] false. *)
Theorem startup_only_reads (tg : terragen) :
  log_of (startup tg) =
    (firstn (startup_calls_made tg) startup_calls
     ++ match first_startup_failure tg with
        | Some e => [failure_popup e]
        | None => []
        end)%list
  /\ (first_startup_failure tg = None -> startup_calls_made tg = 4%nat)
  /\ (forall e,
        first_startup_failure tg = Some e ->
        nth_error
          [root tg;
           match get_param tg "current_frame" with
           | inl e1 => Some e1 | inr _ => None end;
           match get_param tg "start_frame" with
           | inl e1 => Some e1 | inr _ => None end;
           match get_param tg "end_frame" with
           | inl e1 => Some e1 | inr _ => None end]
          (startup_calls_made tg - 1) = Some (Some e))
  /\ filter is_set_param (log_of (startup tg)) = []
  /\ ERROR_SHOWN (state_of (startup tg)) = false.
Proof.
  unfold startup, first_startup_failure, startup_calls_made, startup_calls.
  rewrite on_startup_eq.
  destruct (root tg) as [e|].
  { repeat split; try discriminate. intros e0 H. injection H as <-.
    reflexivity. }
  destruct (get_param tg "current_frame") as [e|current].
  { repeat split; try discriminate. intros e0 H. injection H as <-.
    reflexivity. }
  cbv zeta. destruct (get_param tg "start_frame") as [e|first].
  { repeat split; try discriminate. intros e0 H. injection H as <-.
    reflexivity. }
  destruct (get_param tg "end_frame") as [e|last].
  { repeat split; try discriminate. intros e0 H. injection H as <-.
    reflexivity. }
  repeat split. discriminate.
Qed.

Lemma startup_only_reads_witness :
  log_of (startup (server_failing_after_current 24 (TimeoutError "late"))) =
    [RpcRoot; RpcGetParam "current_frame"; RpcGetParam "start_frame";
     failure_popup (TimeoutError "late")].
Proof.
  apply (startup_only_reads
           (server_failing_after_current 24 (TimeoutError "late"))).
Defined.

Lemma startup_snapshot_fetched (tg : terragen) (current : Z) :
  root tg = None ->
  get_param tg "current_frame" = inr current ->
  current_frame_at_startup (state_of (startup tg)) = numeral current.
Proof.
  intros Hroot Hcurrent. unfold startup.
  rewrite on_startup_eq, Hroot, Hcurrent. cbv zeta.
  destruct (get_param tg "start_frame"); [reflexivity|].
  destruct (get_param tg "end_frame"); reflexivity.
Qed.

Lemma run_then_escape (evs : list event) (s : state) :
  state_of (run (evs ++ [Escape]) s) =
  set_current_frame_var (current_frame_at_startup (state_of (run evs s)))
    (state_of (run evs s)).
Proof. rewrite run_app. reflexivity. Qed.

(** X6.  Once the startup has fetched [current_frame], Escape brings the
    fetched frame back after any run of events, even when a later startup
    fetch failed: the field then holds the numeral of that frame.  When the
    frame is one that [int] converts, the field reads as that frame and the
    key release that follows pushes exactly it to a server that answers
    [root]. *)
Theorem escape_restores_fetched_frame (tg tg1 : terragen) (current : Z)
  (evs : list event)
  (Hroot : root tg = None)
  (Hcurrent : get_param tg "current_frame" = inr current) :
  current_frame_var (state_of (run (evs ++ [Escape]) (state_of (startup tg))))
  = numeral current
  /\ (fits current = true ->
      Py.int
        (current_frame_var
           (state_of (run (evs ++ [Escape]) (state_of (startup tg)))))
      = Some current
      /\ (root tg1 = None ->
          filter is_rpc
            (log_of
               (on_go_to tg1
                  (state_of
                     (run (evs ++ [Escape]) (state_of (startup tg))))))
          = [RpcRoot; RpcSetParam "current_frame" current])).
Proof.
  assert (Hfield :
    current_frame_var
      (state_of (run (evs ++ [Escape]) (state_of (startup tg))))
    = numeral current).
  { rewrite run_then_escape.
    cbn [current_frame_var set_current_frame_var].
    rewrite run_snapshot_preserved.
    apply (startup_snapshot_fetched tg current Hroot Hcurrent). }
  split; [exact Hfield|]. intros Hfits.
  assert (Hint :
    Py.int
      (current_frame_var
         (state_of (run (evs ++ [Escape]) (state_of (startup tg)))))
    = Some current)
    by (rewrite Hfield; apply fits_int_numeral; exact Hfits).
  split; [exact Hint|].
  intros Hroot1. rewrite (on_go_to_valid tg1 _ current Hint), Hroot1.
  cbn [log_of snd].
  destruct (set_param tg1 "current_frame" current); reflexivity.
Qed.

Lemma escape_restores_fetched_frame_witness :
  current_frame_var
    (state_of
       (run ([Up; UserEdit "9x"; KeyRelease (server_at 24)] ++ [Escape])
          (state_of
             (startup
                (server_failing_after_current 24 (TimeoutError "late"))))))
  = "24".
Proof.
  destruct (escape_restores_fetched_frame
              (server_failing_after_current 24 (TimeoutError "late"))
              (server_at 24) 24
              [Up; UserEdit "9x"; KeyRelease (server_at 24)] eq_refl eq_refl)
    as [Hfield _].
  exact Hfield.
Defined.

Lemma step_adds (ev : event) (s : state) (n : Z) :
  is_step ev = true ->
  Py.int (current_frame_var s) = Some n ->
  step_delta ev = 0 \/ fits (n + step_delta ev) = true ->
  log_of (dispatch ev s) = []
  /\ result_of (dispatch ev s) = Returned tt
  /\ Py.int (current_frame_var (state_of (dispatch ev s)))
     = Some (n + step_delta ev)
  /\ ERROR_SHOWN (state_of (dispatch ev s)) = ERROR_SHOWN s.
Proof.
  intros Hstep E Hfit. destruct ev as [text | tg | | | delta | ];
    try discriminate Hstep; cbn [dispatch step_delta] in *.
  - destruct Hfit as [Hfit|Hfit]; [discriminate|].
    rewrite (increase_value_valid s n E).
    cbn [state_of log_of result_of fst snd current_frame_var
         set_current_frame_var ERROR_SHOWN].
    rewrite (fits_int_numeral _ Hfit). repeat split.
  - destruct Hfit as [Hfit|Hfit]; [discriminate|].
    rewrite (decrease_value_valid s n E).
    cbn [state_of log_of result_of fst snd current_frame_var
         set_current_frame_var ERROR_SHOWN].
    change (n - 1) with (n + -1).
    rewrite (fits_int_numeral _ Hfit). repeat split.
  - rewrite (on_mouse_wheel_valid delta s n E). unfold wheel_write.
    destruct (Z.ltb_spec 0 delta) as [Hpos|Hnpos].
    + rewrite (Z.sgn_pos delta Hpos) in *.
      destruct Hfit as [Hfit|Hfit]; [discriminate|].
      rewrite str_fits, Hfit.
      cbn [state_of log_of result_of fst snd current_frame_var
           set_current_frame_var ERROR_SHOWN].
      rewrite (fits_int_numeral _ Hfit). repeat split.
    + destruct (Z.ltb_spec delta 0) as [Hneg|Hnneg].
      * rewrite (Z.sgn_neg delta Hneg) in *.
        destruct Hfit as [Hfit|Hfit]; [discriminate|].
        change (n - 1) with (n + -1). rewrite str_fits, Hfit.
        cbn [state_of log_of result_of fst snd current_frame_var
             set_current_frame_var ERROR_SHOWN].
        rewrite (fits_int_numeral _ Hfit). repeat split.
      * assert (delta = 0) by lia. subst delta. cbn [Z.sgn].
        rewrite Z.add_0_r. repeat split. exact E.
Qed.

Lemma steps_add (evs : list event) :
  forall (s : state) (n : Z),
    forallb is_step evs = true ->
    Py.int (current_frame_var s) = Some n ->
    steps_fit n evs = true ->
    log_of (run evs s) = []
    /\ Py.int (current_frame_var (state_of (run evs s)))
       = Some (n + net_steps evs)
    /\ ERROR_SHOWN (state_of (run evs s)) = ERROR_SHOWN s.
Proof.
  induction evs as [|ev rest IH]; intros s n Hall E Hfit.
  - cbn. rewrite Z.add_0_r. repeat split. exact E.
  - cbn [forallb] in Hall. apply andb_true_iff in Hall.
    destruct Hall as [Hstep Hall]. cbn [steps_fit] in Hfit.
    assert (Hnow : step_delta ev = 0 \/ fits (n + step_delta ev) = true).
    { destruct (Z.eqb_spec (step_delta ev) 0) as [H0|H0]; [left; exact H0|].
      apply andb_true_iff in Hfit. right. apply Hfit. }
    assert (Hrest : steps_fit (n + step_delta ev) rest = true).
    { destruct (Z.eqb_spec (step_delta ev) 0) as [H0|H0].
      - rewrite H0, Z.add_0_r. exact Hfit.
      - apply andb_true_iff in Hfit. apply Hfit. }
    destruct (step_adds ev s n Hstep E Hnow) as [Hlog [_ [Hint Hflag]]].
    destruct (IH _ _ Hall Hint Hrest) as [Hlog1 [Hint1 Hflag1]].
    rewrite run_cons. cbn [state_of log_of fst snd net_steps fold_right].
    unfold state_of, log_of in *.
    rewrite Hlog, Hlog1, Hint1, Hflag1, Hflag.
    repeat split. f_equal. unfold net_steps. lia.
Qed.

(** X7.  Steps add up.  From a valid text reading [n], a sequence of Up,
    Down and wheel events whose values all keep within the digits that
    [int] and [str] convert leaves a text that reads [n] plus the Ups and
    the wheel-ups minus the Downs and the wheel-downs; nothing is shown,
    printed or sent, and the flag and the snapshot stay as they were.  The
    frame bounds play no part: the count goes past them. *)
Theorem steps_accumulate (evs : list event) (s : state) (n : Z)
  (Hsteps : forallb is_step evs = true)
  (Hvalid : Py.int (current_frame_var s) = Some n)
  (Hfit : steps_fit n evs = true) :
  Py.int (current_frame_var (state_of (run evs s))) = Some (n + net_steps evs)
  /\ log_of (run evs s) = []
  /\ ERROR_SHOWN (state_of (run evs s)) = ERROR_SHOWN s
  /\ current_frame_at_startup (state_of (run evs s))
     = current_frame_at_startup s.
Proof.
  destruct (steps_add evs s n Hsteps Hvalid Hfit) as [Hlog [Hint Hflag]].
  split; [exact Hint|]. split; [exact Hlog|]. split; [exact Hflag|].
  apply run_snapshot_preserved.
Qed.

Lemma steps_accumulate_witness :
  Py.int
    (current_frame_var
       (state_of
          (run [Up; Up; MouseWheel (-120); Down; Down; Down; MouseWheel 0]
             (mkState "24" " +1_0 " "1" "100" false))))
  = Some 8.
Proof.
  apply (steps_accumulate
           [Up; Up; MouseWheel (-120); Down; Down; Down; MouseWheel 0]
           (mkState "24" " +1_0 " "1" "100" false) 10 eq_refl eq_refl
           eq_refl).
Defined.

Lemma run_then_log (evs : list event) (ev : event) (s : state) :
  log_of (run (evs ++ [ev]) s) =
  (log_of (run evs s) ++ log_of (dispatch ev (state_of (run evs s))))%list.
Proof.
  rewrite run_app, run_cons. cbn [log_of snd run ret].
  rewrite app_nil_r. reflexivity.
Qed.

(** X8.  A step reaches the server with the key release that follows it:
    after a sequence of steps from a valid text reading [n], with values
    that all keep within the digits that [int] and [str] convert, [on_go_to]
    against a server that answers [root] calls
    [set_param("current_frame", n + net)] once, and nothing before it was
    sent. *)
Theorem steps_then_commit (evs : list event) (tg : terragen) (s : state)
  (n : Z)
  (Hsteps : forallb is_step evs = true)
  (Hvalid : Py.int (current_frame_var s) = Some n)
  (Hfit : steps_fit n evs = true)
  (Hroot : root tg = None) :
  filter is_rpc (log_of (run (evs ++ [KeyRelease tg]) s)) =
    [RpcRoot; RpcSetParam "current_frame" (n + net_steps evs)].
Proof.
  destruct (steps_add evs s n Hsteps Hvalid Hfit) as [Hlog [Hint _]].
  rewrite run_then_log, Hlog. cbn [app dispatch].
  rewrite (on_go_to_valid tg _ _ Hint), Hroot. cbn [log_of snd].
  destruct (set_param tg "current_frame" (n + net_steps evs)); reflexivity.
Qed.

Lemma steps_then_commit_witness :
  filter is_rpc
    (log_of
       (run ([Up; Up; Down] ++ [KeyRelease (server_at 24)])
          (mkState "24" "24" "1" "100" false)))
  = [RpcRoot; RpcSetParam "current_frame" 25].
Proof.
  apply (steps_then_commit [Up; Up; Down] (server_at 24)
           (mkState "24" "24" "1" "100" false) 24 eq_refl eq_refl eq_refl
           eq_refl).
Defined.

(** X9.  The wheel counts clicks, not distance: [on_mouse_wheel] does for
    a delta what it does for the sign of that delta, and with a zero delta
    and a valid text it does nothing at all. *)
Theorem wheel_uses_sign_only (delta : Z) (s : state) :
  on_mouse_wheel delta s = on_mouse_wheel (Z.sgn delta) s
  /\ (valid_text s = true -> on_mouse_wheel 0 s = (Returned tt, s, [])).
Proof.
  assert (Hpos : (0 <? Z.sgn delta)%Z = (0 <? delta)%Z).
  { destruct delta; reflexivity. }
  assert (Hneg : (Z.sgn delta <? 0)%Z = (delta <? 0)%Z).
  { destruct delta; reflexivity. }
  split.
  - destruct (Py.int (current_frame_var s)) as [n|] eqn:E.
    + rewrite !(on_mouse_wheel_valid _ s n E), Hpos, Hneg. reflexivity.
    + rewrite !(on_mouse_wheel_invalid _ s E). reflexivity.
  - intros Hvalid. apply valid_text_true in Hvalid.
    destruct Hvalid as [n E]. rewrite (on_mouse_wheel_valid 0 s n E).
    reflexivity.
Qed.

Lemma wheel_uses_sign_only_witness :
  on_mouse_wheel 0 (mkState "24" " 7" "1" "100" true) =
    (Returned tt, mkState "24" " 7" "1" "100" true, []).
Proof.
  apply (wheel_uses_sign_only 0 (mkState "24" " 7" "1" "100" true)).
  reflexivity.
Defined.




Lemma uint_all_digits (d : Decimal.uint) :
  forallb is_digit_char (unicode_of_string (NilEmpty.string_of_uint d))
  = true.
Proof.
  unfold unicode_of_string.
  induction d; [reflexivity | ..];
    cbn [NilEmpty.string_of_uint list_ascii_of_string map forallb];
    rewrite IHd; reflexivity.
Qed.

Lemma unicode_of_string_inj (a b : string) :
  unicode_of_string a = unicode_of_string b -> a = b.
Proof.
  unfold unicode_of_string. revert b.
  induction a as [|c a IH]; intros [|c' b] H; try discriminate H;
    [reflexivity|].
  cbn [list_ascii_of_string map] in H. injection H as Hc H.
  f_equal; [|apply IH; exact H].
  rewrite <- (ascii_N_embedding c), <- (ascii_N_embedding c'), Hc.
  reflexivity.
Qed.

Lemma numeral_inj (n m : Z) : numeral n = numeral m -> n = m.
Proof.
  unfold numeral. intros H. apply unicode_of_string_inj in H.
  apply DecimalZ.to_int_inj.
  assert (Hnil : forall z,
    Z.to_int z <> Decimal.Pos Decimal.Nil
    /\ Z.to_int z <> Decimal.Neg Decimal.Nil).
  { intros [|p|p]; split; try discriminate; cbn [Z.to_int]; intros Hp;
      injection Hp as Hp;
      exact (DecimalPos.Unsigned.to_uint_nonnil p Hp). }
  pose proof (NilZero.isi (Z.to_int n) (proj1 (Hnil n)) (proj2 (Hnil n)))
    as Hn.
  pose proof (NilZero.isi (Z.to_int m) (proj1 (Hnil m)) (proj2 (Hnil m)))
    as Hm.
  rewrite H in Hn. congruence.
Qed.

Lemma numeral_signed_decimal (n : Z) : is_signed_decimal (numeral n) = true.
Proof.
  unfold is_signed_decimal, numeral.
  destruct n as [|p|p]; [reflexivity | ..];
    pose proof (DecimalPos.Unsigned.to_uint_nonnil p) as Hnil;
    cbn [Z.to_int NilZero.string_of_int];
    rewrite (string_of_uint_nonnil _ Hnil);
    pose proof (uint_all_digits (Pos.to_uint p)) as Hall.
  - destruct (unicode_of_string (NilEmpty.string_of_uint (Pos.to_uint p)))
      as [|c r] eqn:E.
    + destruct (Pos.to_uint p); try discriminate E. congruence.
    + cbn [drop_sign].
      assert (Hc : is_digit_char c = true).
      { cbn [forallb] in Hall. apply andb_true_iff in Hall. apply Hall. }
      assert (Hs : is_sign_char c = false).
      { unfold is_sign_char, is_digit_char in *.
        destruct (N.eqb_spec c 43) as [->|_]; [discriminate Hc|].
        destruct (N.eqb_spec c 45) as [->|_]; [discriminate Hc|].
        reflexivity. }
      rewrite Hs. exact Hall.
  - change (unicode_of_string
              (String "-" (NilEmpty.string_of_uint (Pos.to_uint p))))
      with (45%N :: unicode_of_string
                       (NilEmpty.string_of_uint (Pos.to_uint p))).
    cbn [drop_sign]. change (is_sign_char 45) with true. cbv iota.
    destruct (unicode_of_string (NilEmpty.string_of_uint (Pos.to_uint p)))
      as [|c r] eqn:E; [|exact Hall].
    destruct (Pos.to_uint p); try discriminate E. congruence.
Qed.

(** X12.  [str] and [int] agree on the numerals.  [str(n)] returns exactly
    when [n] has no more than [Py.max_str_digits] digits; what it returns is
    the numeral of [n], an optional minus sign and digits only, and [int]
    reads it back as [n].  Two integers never share a numeral. *)
Theorem str_round_trip (n m : Z) :
  (forall text,
      Py.str n = Some text ->
      text = numeral n /\ Py.int text = Some n
      /\ is_signed_decimal text = true)
  /\ (Py.str n = None <-> (Py.max_str_digits < digits n)%nat)
  /\ (Py.str n = None <-> Py.int (numeral n) = None)
  /\ (numeral n = numeral m -> n = m).
Proof.
  split; [|split; [|split]].
  - intros text H. rewrite str_fits in H.
    destruct (fits n) eqn:F; [|discriminate H]. injection H as <-.
    split; [reflexivity|]. split; [apply fits_int_numeral; exact F|].
    apply numeral_signed_decimal.
  - unfold Py.str.
    destruct (Nat.ltb_spec Py.max_str_digits (digits n)) as [H|H].
    + split; [intros _; exact H | reflexivity].
    + split; [discriminate | lia].
  - rewrite int_numeral. unfold Py.str.
    destruct (Py.max_str_digits <? digits n)%nat;
      split; try reflexivity; discriminate.
  - apply numeral_inj.
Qed.

Lemma str_round_trip_witness :
  Py.int (numeral (-25)) = Some (-25).
Proof.
  destruct (str_round_trip (-25) 0) as [Hback _].
  destruct (Hback (numeral (-25)) eq_refl) as [_ [Hint _]]. exact Hint.
Defined.

Lemma blank_spaces (text : unicode) :
  blank text = true <->
  Forall (fun c => Py.is_space c = true) (map Py.to_ascii text).
Proof.
  unfold blank. rewrite spaces_of_text, forallb_forall, Forall_forall.
  reflexivity.
Qed.

(** X13.  An empty field, or one holding white space only, is invalid:
    [int] rejects it, so [on_go_to] sends nothing to the server, keeps the
    text and leaves [ERROR_SHOWN] set. *)
Theorem blank_text_is_invalid (tg : terragen) (s : state)
  (Hblank : blank (current_frame_var s) = true) :
  Py.int (current_frame_var s) = None
  /\ filter is_rpc (log_of (on_go_to tg s)) = []
  /\ current_frame_var (state_of (on_go_to tg s)) = current_frame_var s
  /\ ERROR_SHOWN (state_of (on_go_to tg s)) = true.
Proof.
  assert (E : Py.int (current_frame_var s) = None).
  { apply blank_spaces, skip_space_all in Hblank.
    unfold Py.int, Py.int_of_chars. rewrite Hblank. reflexivity. }
  split; [exact E|]. rewrite (on_go_to_invalid tg s E).
  cbn [state_of log_of fst snd].
  destruct (ERROR_SHOWN s) eqn:F; repeat split; exact F.
Qed.

Lemma blank_text_is_invalid_witness :
  filter is_rpc
    (log_of (on_go_to (server_at 24) (mkState "24" "" "1" "100" false))) = [].
Proof.
  apply (blank_text_is_invalid (server_at 24)
           (mkState "24" "" "1" "100" false) eq_refl).
Defined.

Lemma event_budget (ev : event) (s : state) :
  (invalid_input_popups (log_of (dispatch ev s))
   + budget (state_of (dispatch ev s))
   <= budget s + (if is_key_release ev then 1 else 0))%nat.
Proof.
  destruct (valid_text s) eqn:Hs.
  - rewrite (valid_no_popup ev s Hs). apply valid_text_true in Hs.
    destruct Hs as [m Hm].
    handler_cases ev s; try congruence; unfold budget; cbn;
      repeat match goal with
      | |- context [(?a <? ?b)%Z] => destruct (a <? b)%Z; cbn
      | |- context [match Py.str ?n with Some _ => _ | None => _ end] =>
          destruct (Py.str n); cbn
      end;
      destruct (ERROR_SHOWN s); lia.
  - pose proof (invalid_spends_budget ev s Hs). lia.
Qed.

(** X14.  Warnings cannot flood: whatever the starting state and whatever
    the events, a run shows the "Invalid input" warning at most once more
    than it has key releases; a run without key release, however long,
    shows it at most once. *)
Theorem warnings_bounded_by_key_releases (evs : list event) (s : state) :
  (invalid_input_popups (log_of (run evs s)) <= 1 + key_releases evs)%nat.
Proof.
  assert (Hgen : forall s0,
    (invalid_input_popups (log_of (run evs s0)) + budget (state_of (run evs s0))
     <= budget s0 + key_releases evs)%nat).
  { induction evs as [|ev rest IH]; intros s0; [cbn; lia|].
    rewrite run_cons. cbn [log_of state_of fst snd].
    rewrite invalid_input_popups_app.
    pose proof (event_budget ev s0) as Hev.
    specialize (IH (state_of (dispatch ev s0))).
    unfold key_releases in *. cbn [filter].
    unfold log_of, state_of in *.
    destruct (is_key_release ev); cbn [Datatypes.length]; lia. }
  specialize (Hgen s). unfold budget in Hgen at 2.
  destruct (ERROR_SHOWN s); lia.
Qed.

(** ** White space and underscores do not change the value *)

Lemma count_digits_trail (trail : list ascii) :
  Forall (fun c => Py.is_space c = true) trail ->
  forall l : list ascii,
    Py.count_digits (l ++ trail) = Py.count_digits l.
Proof.
  intros Htrail. induction l as [|c r IH]; cbn [app Py.count_digits].
  - apply count_digits_stop, spaces_stop. exact Htrail.
  - rewrite IH. reflexivity.
Qed.

Lemma scan_digits_trail (trail : list ascii) :
  Forall (fun c => Py.is_space c = true) trail ->
  forall (l : list ascii) (prev : bool) (acc : Z),
    Py.scan_digits prev acc (l ++ trail) =
    match Py.scan_digits prev acc l with
    | Some (n, rest) => Some (n, (rest ++ trail)%list)
    | None => None
    end.
Proof.
  intros Htrail. induction l as [|c r IH]; intros prev acc.
  - cbn [app Py.scan_digits]. destruct Htrail as [|t ts Ht _].
    + destruct prev; reflexivity.
    + cbn [Py.scan_digits].
      rewrite (space_not_digit t Ht), (space_not_underscore t Ht).
      destruct prev; reflexivity.
  - cbn [app Py.scan_digits]. destruct (Py.is_digit c); [apply IH|].
    destruct (Py.is_underscore c).
    + destruct prev; [reflexivity | apply IH].
    + destruct prev; reflexivity.
Qed.

Lemma skip_space_trail (trail : list ascii) :
  Forall (fun c => Py.is_space c = true) trail ->
  forall l : list ascii,
    Py.skip_space (l ++ trail) =
    match Py.skip_space l with
    | [] => []
    | c :: r => (c :: r ++ trail)%list
    end.
Proof.
  intros Htrail. induction l as [|c r IH]; cbn [app Py.skip_space].
  - apply skip_space_all. exact Htrail.
  - destruct (Py.is_space c); [exact IH | reflexivity].
Qed.

Lemma magnitude_trail (negative : bool) (body trail : list ascii) :
  Forall (fun c => Py.is_space c = true) trail ->
  Py.magnitude negative (body ++ trail) = Py.magnitude negative body.
Proof.
  intros Htrail. destruct body as [|c r].
  - cbn [app]. destruct Htrail as [|t ts Ht _]; [reflexivity|].
    unfold Py.magnitude. rewrite (space_not_digit t Ht). reflexivity.
  - unfold Py.magnitude. cbn [app].
    destruct (Py.is_digit c); [|reflexivity].
    change (c :: r ++ trail)%list with ((c :: r) ++ trail)%list.
    rewrite (count_digits_trail trail Htrail).
    destruct (Py.max_str_digits <? Py.count_digits (c :: r))%nat;
      [reflexivity|].
    rewrite (scan_digits_trail trail Htrail).
    destruct (Py.scan_digits false 0 (c :: r)) as [[n rest]|]; [|reflexivity].
    rewrite (skip_space_trail trail Htrail).
    destruct (Py.skip_space rest); reflexivity.
Qed.

Lemma int_of_chars_trail (l trail : list ascii) :
  Forall (fun c => Py.is_space c = true) trail ->
  Py.int_of_chars (l ++ trail) = Py.int_of_chars l.
Proof.
  intros Htrail. unfold Py.int_of_chars.
  rewrite (skip_space_trail trail Htrail).
  destruct (Py.skip_space l) as [|c r]; [reflexivity|].
  unfold Py.take_sign.
  destruct (nat_of_ascii c =? 43)%nat;
    [apply magnitude_trail; exact Htrail|].
  destruct (nat_of_ascii c =? 45)%nat;
    [apply magnitude_trail; exact Htrail|].
  apply (magnitude_trail false (c :: r) trail Htrail).
Qed.

(** X15.  White space around the number does not count: a text padded
    with blanks on either side is valid exactly when the bare text is, and
    reads as the same integer. *)
Theorem int_ignores_padding (lead text trail : unicode)
  (Hlead : blank lead = true)
  (Htrail : blank trail = true) :
  Py.int (lead ++ text ++ trail)%list = Py.int text.
Proof.
  apply blank_spaces in Hlead. apply blank_spaces in Htrail.
  unfold Py.int. rewrite !map_app.
  unfold Py.int_of_chars at 1. rewrite (skip_space_app _ _ Hlead).
  fold (Py.int_of_chars (map Py.to_ascii text ++ map Py.to_ascii trail)).
  apply int_of_chars_trail. exact Htrail.
Qed.

Lemma int_ignores_padding_witness :
  Py.int (" " ++ "-12" ++ "  ") = Py.int "-12".
Proof.
  apply (int_ignores_padding " " "-12" "  " eq_refl eq_refl).
Defined.

Lemma filter_spaces (l : list ascii) :
  Forall (fun c => Py.is_space c = true) l ->
  filter not_underscore l = l.
Proof.
  induction 1 as [|c r Hc _ IH]; cbn [filter]; [reflexivity|].
  unfold not_underscore at 1. rewrite (space_not_underscore c Hc), IH.
  reflexivity.
Qed.

Lemma scan_digits_filter (l : list ascii) :
  forall (prev : bool) (acc n : Z) (rest : list ascii),
    Py.scan_digits prev acc l = Some (n, rest) ->
    Forall (fun c => Py.is_space c = true) rest ->
    Py.scan_digits false acc (filter not_underscore l) = Some (n, rest).
Proof.
  induction l as [|c r IH]; intros prev acc n rest Hscan Hrest.
  - destruct prev; [discriminate|]. exact Hscan.
  - cbn [Py.scan_digits] in Hscan. cbn [filter]. unfold not_underscore at 1.
    destruct (Py.is_digit c) eqn:Hc.
    + rewrite (digit_not_underscore c Hc). cbn [negb Py.scan_digits].
      rewrite Hc. apply (IH false _ _ _ Hscan Hrest).
    + destruct (Py.is_underscore c) eqn:Hu.
      * cbn [negb]. destruct prev; [discriminate|].
        apply (IH true _ _ _ Hscan Hrest).
      * destruct prev; [discriminate|]. injection Hscan as <- <-.
        cbn [negb].
        pose proof (filter_spaces (c :: r) Hrest) as Hf.
        cbn [filter] in Hf. unfold not_underscore at 1 in Hf.
        rewrite Hu in Hf. cbn [negb] in Hf. rewrite Hf.
        cbn [Py.scan_digits]. rewrite Hc, Hu. reflexivity.
Qed.

Lemma count_digits_filter (l : list ascii) :
  Py.count_digits (filter not_underscore l) = Py.count_digits l.
Proof.
  induction l as [|c r IH]; [reflexivity|].
  cbn [filter Py.count_digits]. unfold not_underscore at 1.
  destruct (Py.is_digit c) eqn:Hc.
  - rewrite (digit_not_underscore c Hc). cbn [negb Py.count_digits].
    rewrite Hc, IH. reflexivity.
  - destruct (Py.is_underscore c) eqn:Hu; cbn [negb]; [exact IH|].
    cbn [Py.count_digits]. rewrite Hc, Hu. reflexivity.
Qed.

Lemma magnitude_filter (negative : bool) (body : list ascii) (n : Z) :
  Py.magnitude negative body = Some n ->
  Py.magnitude negative (filter not_underscore body) = Some n.
Proof.
  unfold Py.magnitude. destruct body as [|c r]; [discriminate|].
  destruct (Py.is_digit c) eqn:Hc; [|discriminate].
  destruct (Py.max_str_digits <? Py.count_digits (c :: r))%nat eqn:Hcap;
    [discriminate|].
  destruct (Py.scan_digits false 0 (c :: r)) as [[m rest]|] eqn:Es;
    [|discriminate].
  destruct (Py.skip_space rest) eqn:Et; [|discriminate].
  intros Hn. apply skip_space_all in Et.
  rewrite (count_digits_filter (c :: r)), Hcap.
  rewrite (scan_digits_filter _ _ _ _ _ Es Et).
  cbn [filter]. unfold not_underscore at 1.
  rewrite (digit_not_underscore c Hc). cbn [negb]. rewrite Hc.
  apply skip_space_all in Et. rewrite Et. exact Hn.
Qed.

Lemma int_of_chars_filter (l : list ascii) (n : Z) :
  Py.int_of_chars l = Some n ->
  Py.int_of_chars (filter not_underscore l) = Some n.
Proof.
  intros H. unfold Py.int_of_chars in *.
  destruct (skip_space_split l) as [lead [El Hl]].
  rewrite El at 1. rewrite filter_app, (filter_spaces lead Hl).
  rewrite (skip_space_app _ _ Hl).
  destruct (Py.skip_space l) as [|c r]; [discriminate H|].
  unfold Py.take_sign in H.
  destruct (nat_of_ascii c =? 43)%nat eqn:E1.
  - apply Nat.eqb_eq in E1.
    assert (Hc : c = "+"%char)
      by (rewrite <- (ascii_nat_embedding c), E1; reflexivity).
    subst c. cbn. apply magnitude_filter. exact H.
  - destruct (nat_of_ascii c =? 45)%nat eqn:E2.
    + apply Nat.eqb_eq in E2.
      assert (Hc : c = "-"%char)
        by (rewrite <- (ascii_nat_embedding c), E2; reflexivity).
      subst c. cbn. apply magnitude_filter. exact H.
    + pose proof (magnitude_filter false (c :: r) n H) as Hm.
      assert (Hd : Py.is_digit c = true).
      { unfold Py.magnitude in H. destruct (Py.is_digit c);
          [reflexivity | discriminate]. }
      cbn [filter] in Hm |- *. unfold not_underscore at 1 in Hm.
      unfold not_underscore at 1.
      rewrite (digit_not_underscore c Hd) in Hm |- *.
      cbn [negb] in Hm |- *. cbn [Py.skip_space].
      rewrite (digit_not_space c Hd), (digit_not_sign c _ Hd). exact Hm.
Qed.

Lemma to_ascii_drop_underscores (text : unicode) :
  map Py.to_ascii (drop_underscores text) =
  filter not_underscore (map Py.to_ascii text).
Proof.
  unfold drop_underscores, not_underscore.
  induction text as [|c r IH]; [reflexivity|].
  cbn [filter map]. rewrite to_ascii_underscore.
  destruct (is_underscore_char c); cbn [negb map]; rewrite IH; reflexivity.
Qed.

(** X16.  Underscores group digits and carry no value: when [int] accepts
    a text, it accepts the text without its underscores too and reads the
    same integer, so the frame that is pushed is the one the digits
    spell. *)
Theorem int_ignores_underscores (text : unicode) (n : Z)
  (Hvalid : Py.int text = Some n) :
  Py.int (drop_underscores text) = Some n.
Proof.
  unfold Py.int in *. rewrite to_ascii_drop_underscores.
  apply int_of_chars_filter. exact Hvalid.
Qed.

Lemma int_ignores_underscores_witness :
  Py.int (drop_underscores " -1_000_000") = Some (-1000000).
Proof.
  apply (int_ignores_underscores " -1_000_000" (-1000000) eq_refl).
Defined.

